(** * train_openfold.py: weight swapping, checkpoint resumption and start-up checks

    A shallow embedding of [train_openfold.py].  Tensors live in a heap and
    state dicts hold references into it, as [model.state_dict()] does in
    PyTorch; Python exceptions are values of [exception]; the collaborators
    the script imports (the network, the loss, the metric libraries, the file
    system) are the fields of one record of parameters. *)

From Stdlib Require Import ZArith QArith Lia Ascii.
From stdpp Require Import base option list gmap strings pretty.

Set Warnings "-register-all".

(** ** Exceptions and results *)

Inductive exception : Type :=
  | AssertionError (msg : string)
  | ValueError (msg : string)
  | NameError (name : string)
  | AttributeError (msg : string)
  | RuntimeError (msg : string)
  | KeyError (key : string)
  | IndexError (msg : string)
  | TypeError (msg : string).

Inductive result (A : Type) : Type :=
  | Ok (a : A)
  | Raise (e : exception).
Arguments Ok {A} a.
Arguments Raise {A} e.

(** A computation over a mutable state [S] that returns or raises; the state
    survives an exception, as Python objects do. *)
Definition M (S A : Type) : Type := S → result A * S.

Definition ret {S A} (a : A) : M S A := λ s, (Ok a, s).
Definition raise {S A} (e : exception) : M S A := λ s, (Raise e, s).
Definition bind {S A B} (m : M S A) (f : A → M S B) : M S B :=
  λ s, match m s with
       | (Ok a, s') => f a s'
       | (Raise e, s') => (Raise e, s')
       end.
Definition lift {S A} (r : result A) : M S A := λ s, (r, s).

#[global] Instance M_ret {S} : MRet (M S) := λ A, ret.
#[global] Instance M_bind {S} : MBind (M S) := λ A B f m, bind m f.

#[global] Instance result_bind : MBind result :=
  λ A B f r, match r with Ok a => f a | Raise e => Raise e end.

(** ** Python values *)

(** A tensor: its shape and the bit patterns of its elements. *)
Record tensor := { shape : list nat; data : list Z }.

#[global] Instance tensor_inhabited : Inhabited tensor :=
  populate {| shape := []; data := [] |}.

(** Python floats are only stored, copied and handed to collaborators here. *)
Definition float := Q.

(** What [torch.load] and the checkpoint hooks hand over: nested dicts with
    numbers and tensors at the leaves. *)
Inductive value : Type :=
  | VInt (z : Z)
  | VFloat (x : float)
  | VTensor (t : tensor)
  | VDict (d : gmap string value).

(** [d[k]] *)
Definition getitem (d : value) (k : string) : result value :=
  match d with
  | VDict m => match m !! k with
               | Some v => Ok v
               | None => Raise (KeyError k)
               end
  | _ => Raise (TypeError "object is not subscriptable")
  end.

(** [d.items()], as the dict it enumerates *)
Definition items (d : value) : result (gmap string value) :=
  match d with
  | VDict m => Ok m
  | _ => Raise (AttributeError "object has no attribute 'items'")
  end.

(** ** Strings *)

(** [sub in s] *)
Fixpoint contains (sub s : string) : bool :=
  String.prefix sub s ||
  match s with
  | EmptyString => false
  | String _ s' => contains sub s'
  end.

(** [s.split(c)] for a one-character separator *)
Fixpoint split (c : Ascii.ascii) (s : string) : list string :=
  match s with
  | EmptyString => [EmptyString]
  | String a s' =>
      if decide (a = c) then EmptyString :: split c s'
      else match split c s' with
           | w :: ws => String a w :: ws
           | [] => [String a EmptyString]
           end
  end.

(** [sep.join(l)] *)
Fixpoint join (sep : string) (l : list string) : string :=
  match l with
  | [] => ""
  | [x] => x
  | x :: rest => x +:+ sep +:+ join sep rest
  end.

(** Truthiness of an optional string argument: [None] and [''] are false. *)
Definition truthy (s : option string) : bool :=
  match s with
  | Some s => negb (String.eqb s "")
  | None => false
  end.

(** ** Heap of tensors and state dicts *)

(** A tensor object is a cell of the heap; a reference is its index. *)
Abbreviation loc := nat.
Abbreviation heap := (list tensor).

(** An [OrderedDict] from parameter names to tensor references, which is what
    [module.state_dict()] returns. *)
Abbreviation state_dict := (list (string * loc)).

Definition keys (sd : state_dict) : list string := sd.*1.
Definition refs (sd : state_dict) : list loc := sd.*2.

(** [sd[k]] *)
Fixpoint sd_get (k : string) (sd : state_dict) : option loc :=
  match sd with
  | [] => None
  | (k', l) :: rest => if decide (k' = k) then Some l else sd_get k rest
  end.

(** [clone_param = lambda t: t.detach().clone()]: a new tensor object with
    the contents of [t].  A reference held by a Python object is always to a
    live tensor: the properties assume it ([allocated]). *)
Definition clone_param (l : loc) (h : heap) : loc * heap :=
  (length h, h ++ [h !!! l]).

(** Modelled from the spec: [tensor_tree_map] of [openfold.utils.tensor_utils]
    is not among the sources; on a dict of tensors it builds a new dict with
    the same keys, in the same order, whose values are [fn] applied to the
    old ones. *)
Fixpoint tensor_tree_map (fn : loc → heap → loc * heap)
    (tree : state_dict) (h : heap) : state_dict * heap :=
  match tree with
  | [] => ([], h)
  | (k, l) :: rest =>
      let '(l', h1) := fn l h in
      let '(rest', h2) := tensor_tree_map fn rest h1 in
      ((k, l') :: rest', h2)
  end.

(** The loop of [torch.nn.Module.load_state_dict]: every tensor the module
    owns is overwritten in place ([param.copy_(input_param)]) by the entry
    of [sd] with its name; a missing name or a shape mismatch is collected
    as an error and leaves that tensor as it is.  Tensors carry no dtype
    here: the copy is that of a source with the dtype of its destination, as
    between a module and its own clone, and the conversion [copy_] makes
    between two dtypes is not modelled. *)
Fixpoint load_from (own sd : state_dict) (h : heap) : list string * heap :=
  match own with
  | [] => ([], h)
  | (k, dst) :: rest =>
      match sd_get k sd with
      | Some src =>
          if decide (shape (h !!! src) = shape (h !!! dst))
          then load_from rest sd (<[dst := h !!! src]> h)
          else let '(errs, h') := load_from rest sd h in
               (("size mismatch for " +:+ k) :: errs, h')
      | None =>
          let '(errs, h') := load_from rest sd h in
          (("missing key " +:+ k) :: errs, h')
      end
  end.

Definition unexpected_keys (own sd : state_dict) : list string :=
  filter (λ k, k ∉ keys own) (keys sd).

(** [module.load_state_dict(sd)] with the default [strict=True], for the
    module whose [state_dict()] is [own].  The argument is whatever Python
    object the caller passes: [None] has no [copy] method.  With errors the
    tensors that did match have been overwritten all the same. *)
Definition load_state_dict (own : state_dict) (sd : option state_dict)
    : M heap unit :=
  λ h,
  match sd with
  | None => (Raise (AttributeError "'NoneType' object has no attribute 'copy'"), h)
  | Some sd =>
      let '(errs, h') := load_from own sd h in
      match errs, unexpected_keys own sd with
      | [], [] => (Ok tt, h')
      | _, _ => (Raise (RuntimeError "Error(s) in loading state_dict"), h')
      end
  end.

(** ** Configuration, batches and the objects of the training script *)

Inductive activation := Sigmoid | ReLU.

(** [config.loss.openmm] *)
Record OpenMMConfig := {
  use_openmm : bool;
  add_struct_metrics : bool;
  weight : float;
  openmm_activation_fn : option activation;
  write_pdbs : bool;
  pdb_dir : string;
}.

(** The parts of the nested configuration the script reads or writes. *)
Record Config := {
  ema_decay : float;          (* config.ema.decay *)
  globals_eps : float;        (* config.globals.eps *)
  template_enabled : bool;    (* config.template.enabled *)
  openmm : OpenMMConfig;      (* config.loss.openmm *)
}.

(** The network, as far as the script looks into it. *)
Record AlphaFold := {
  af_state_dict : state_dict;       (* model.state_dict() *)
  parameters : list loc;            (* model.parameters() *)
  template_config_enabled : bool;   (* model.template_config.enabled *)
}.

(** Modelled from the spec: the EMA tracker of
    [openfold.utils.exponential_moving_average] is not among the sources; its
    state is [{decay, shadow}], the shadow a mapping from the model's
    parameter names to tensors of its own. *)
Record ExponentialMovingAverage := {
  ema_params : state_dict;
  decay : float;
}.

Record OpenFoldWrapper := {
  config : Config;
  model : AlphaFold;
  ema : ExponentialMovingAverage;
  cached_weights : option state_dict;
  last_lr_step : Z;
}.

Definition set_cached_weights (w : OpenFoldWrapper) (c : option state_dict) :=
  {| config := config w; model := model w; ema := ema w;
     cached_weights := c; last_lr_step := last_lr_step w |}.
Definition set_last_lr_step (w : OpenFoldWrapper) (n : Z) :=
  {| config := config w; model := model w; ema := ema w;
     cached_weights := cached_weights w; last_lr_step := n |}.
Definition set_ema (w : OpenFoldWrapper) (e : ExponentialMovingAverage) :=
  {| config := config w; model := model w; ema := e;
     cached_weights := cached_weights w; last_lr_step := last_lr_step w |}.
Definition set_model (w : OpenFoldWrapper) (m : AlphaFold) :=
  {| config := config w; model := m; ema := ema w;
     cached_weights := cached_weights w; last_lr_step := last_lr_step w |}.

(** A method of the wrapper runs on the wrapper object and the heap. *)
Record state := { self : OpenFoldWrapper; mem : heap }.

Definition with_heap {A} (m : M heap A) : M state A :=
  λ st, let '(r, h) := m (mem st) in (r, {| self := self st; mem := h |}).
Definition get_self : M state OpenFoldWrapper := λ st, (Ok (self st), st).
Definition put_self (w : OpenFoldWrapper) : M state unit :=
  λ st, (Ok tt, {| self := w; mem := mem st |}).

(** The features of a batch the script reads. *)
Record Batch := {
  aatype : tensor;
  all_atom_positions : tensor;
  all_atom_mask : tensor;
  use_clamped_fape : option float;
}.

Record Outputs := { final_atom_positions : tensor }.

(** A Python object handed to [load_jax_params_into_model]. *)
Inductive pyobj :=
  | PStr (s : string)
  | PModel (m : AlphaFold).

(** ** Collaborators

    Everything the script imports and does not define. *)
Record Collaborators := {
  (* openfold.config *)
  model_config : string → bool → Z → Config;
  (* constructors of the network and of the EMA tracker *)
  new_AlphaFold : Config → M heap AlphaFold;
  new_ExponentialMovingAverage : AlphaFold → float → M heap ExponentialMovingAverage;
  ema_load_state_dict : ExponentialMovingAverage → value → M heap ExponentialMovingAverage;
  (* the forward pass and the loss *)
  forward : AlphaFold → Batch → M heap Outputs;
  loss : Outputs → Batch → result (tensor * gmap string tensor);
  (* tensor operations *)
  last_recycling : tensor → tensor;                   (* t[..., -1] *)
  mul : tensor → tensor → tensor;                     (* x * y *)
  mul_mask : tensor → tensor → tensor;                (* x * mask[..., None] *)
  index_ca : tensor → tensor;                         (* x[..., ca_pos, :] *)
  mask_index_ca : tensor → tensor;                    (* mask[..., ca_pos] *)
  reshape : tensor → list Z → tensor;                 (* x.reshape(dims) *)
  select : tensor → tensor → tensor;                  (* x[mask.bool()] *)
  (* openfold metrics *)
  lddt_ca : tensor → tensor → tensor → float → tensor;
  drmsd : tensor → tensor → tensor → tensor;
  superimpose : tensor → tensor → tensor → tensor * tensor;
  gdt_ts : tensor → tensor → tensor → tensor;
  gdt_ha : tensor → tensor → tensor → tensor;
  (* sidechainnet metrics *)
  scn_gdc_all : tensor → tensor → tensor;             (* skip_alignment=True, as_percent=False *)
  scn_tm_score : tensor → tensor → tensor;            (* skip_alignment=True *)
  scn_drmsd : tensor → tensor → tensor;
  scn_lddt_all : tensor → tensor → tensor → nat → tensor;   (* cutoff=15 *)
  scn_quasi_lddt_all : tensor → tensor → tensor;      (* cutoff=15 *)
  (* the learning-rate schedule *)
  lr_schedule : Z → float;
  (* files *)
  isdir : string → bool;
  makedirs : string → result unit;
  torch_load : string → result value;
  get_global_step_from_zero_checkpoint : string → result Z;
  get_fp32_state_dict_from_zero_checkpoint : string → result value;
  tensor_int : tensor → result Z;                     (* int(t) *)
  (* LightningModule.load_state_dict on the whole wrapper *)
  module_load_state_dict : OpenFoldWrapper → gmap string value → M heap unit;
  (* JAX import *)
  get_model_basename : pyobj → result string;
  import_jax_weights_ : pyobj → pyobj → string → M heap unit;
  (* TorchScript and data *)
  script_preset_ : OpenFoldWrapper → M heap unit;
  data_module_setup : Config → result unit;
}.

(** ** The wrapper's methods *)

Section Wrapper.
Variable E : Collaborators.

(** [OpenFoldWrapper.__init__] *)
Definition new_OpenFoldWrapper (config : Config) : M heap OpenFoldWrapper :=
  model ← new_AlphaFold E config;
  ema ← new_ExponentialMovingAverage E model (ema_decay config);
  mret {| config := config; model := model; ema := ema;
          cached_weights := None; last_lr_step := -1 |}.

(** [_compute_validation_metrics].  [.cpu().numpy()] changes no value, and the
    block under [show_scn_metrics = False] never runs.  The operations on
    tensors are collaborators that return for every input: the model follows
    batches whose three tensors have the dimensions the operations expect, on
    which the [assert] is the only statement that raises, and the three
    reshapes, each sized in the source by the first dimension of its own
    tensor, are sized by that of the reference, the same on such batches. *)
Definition _compute_validation_metrics (self : OpenFoldWrapper)
    (batch : Batch) (outputs : Outputs) (superimposition_metrics : bool)
    : result (gmap string tensor) :=
  let metrics : gmap string tensor := ∅ in
  let gt_coords := all_atom_positions batch in
  let pred_coords := final_atom_positions outputs in
  let all_atom_mask := all_atom_mask batch in
  let gt_coords_masked := mul_mask E gt_coords all_atom_mask in
  let pred_coords_masked := mul_mask E pred_coords all_atom_mask in
  let gt_coords_masked_ca := index_ca E gt_coords_masked in
  let pred_coords_masked_ca := index_ca E pred_coords_masked in
  let all_atom_mask_ca := mask_index_ca E all_atom_mask in
  let lddt_ca_score :=
    lddt_ca E pred_coords gt_coords all_atom_mask (globals_eps (config self)) in
  let metrics := <["lddt_ca" := lddt_ca_score]> metrics in
  let drmsd_ca_score :=
    drmsd E pred_coords_masked_ca gt_coords_masked_ca all_atom_mask_ca in
  let metrics := <["drmsd_ca" := drmsd_ca_score]> metrics in
  if superimposition_metrics && add_struct_metrics (openmm (config self)) then
    let '(superimposed_pred, alignment_rmsd) :=
      superimpose E gt_coords_masked_ca pred_coords_masked_ca all_atom_mask_ca in
    let gdt_ts_score := gdt_ts E superimposed_pred gt_coords_masked_ca all_atom_mask_ca in
    let gdt_ha_score := gdt_ha E superimposed_pred gt_coords_masked_ca all_atom_mask_ca in
    let metrics := <["rmsd_ca" := alignment_rmsd]> metrics in
    let metrics := <["gdtts_ca" := gdt_ts_score]> metrics in
    let metrics := <["gdtha_ca" := gdt_ha_score]> metrics in
    match shape gt_coords with
    | [] => Raise (IndexError "tuple index out of range")
    | batch_size :: _ =>
        if decide (batch_size = 1) then
          let flat_gt := reshape E gt_coords_masked [Z.of_nat batch_size; -1; 3]%Z in
          let flat_pred := reshape E pred_coords_masked [Z.of_nat batch_size; -1; 3]%Z in
          let flat_all_atom_mask := reshape E all_atom_mask [Z.of_nat batch_size; -1]%Z in
          let flat_gt_unpadded := select E flat_gt flat_all_atom_mask in
          let flat_pred_unpadded := select E flat_pred flat_all_atom_mask in
          let '(flat_superimposed_pred_aa, rmsd_all) :=
            superimpose E flat_gt flat_pred flat_all_atom_mask in
          let metrics := <["rmsd_aa" := rmsd_all]> metrics in
          let flat_superimposed_pred_aa_unpadded :=
            select E flat_superimposed_pred_aa flat_all_atom_mask in
          let gdcall_aa :=
            scn_gdc_all E flat_gt_unpadded flat_superimposed_pred_aa_unpadded in
          let tmscore_aa :=
            scn_tm_score E flat_gt_unpadded flat_superimposed_pred_aa_unpadded in
          let tmscore_ca :=
            scn_tm_score E (select E gt_coords_masked_ca all_atom_mask_ca)
                           (select E superimposed_pred all_atom_mask_ca) in
          let drmsd_aa := scn_drmsd E flat_gt_unpadded flat_pred_unpadded in
          let lddt_aa :=
            scn_lddt_all E
              (mul E (reshape E flat_gt [-1; 3]%Z) (reshape E all_atom_mask [-1; 1]%Z))
              (mul E (reshape E flat_pred [-1; 3]%Z) (reshape E all_atom_mask [-1; 1]%Z))
              (reshape E all_atom_mask [-1]%Z)
              (List.last (shape gt_coords) 0) in
          let lddtquasi_aa :=
            scn_quasi_lddt_all E flat_gt_unpadded flat_pred_unpadded in
          let metrics := <["gdcall_aa" := gdcall_aa]> metrics in
          let metrics := <["tmscore_aa" := tmscore_aa]> metrics in
          let metrics := <["tmscore_ca" := tmscore_ca]> metrics in
          let metrics := <["drmsd_aa" := drmsd_aa]> metrics in
          let metrics := <["lddt_aa" := lddt_aa]> metrics in
          let metrics := <["lddtquasi_aa" := lddtquasi_aa]> metrics in
          Ok metrics
        else
          Raise (AssertionError "Structure metrics only supported for batchsize of 1.")
    end
  else Ok metrics.

(** [_log]: the logging sink is a collaborator that keeps no state of the
    wrapper; what remains is the computation of the monitoring metrics,
    always with [superimposition_metrics=True]. *)
Definition _log (self : OpenFoldWrapper) (loss_breakdown : gmap string tensor)
    (batch : Batch) (outputs : Outputs) (train : bool) : result unit :=
  match _compute_validation_metrics self batch outputs true with
  | Ok other_metrics => Ok tt
  | Raise e => Raise e
  end.

(** [tensor_tree_map(lambda t: t[..., -1], batch)] *)
Definition remove_recycling (batch : Batch) : Batch :=
  {| aatype := last_recycling E (aatype batch);
     all_atom_positions := last_recycling E (all_atom_positions batch);
     all_atom_mask := last_recycling E (all_atom_mask batch);
     use_clamped_fape := use_clamped_fape batch |}.

(** The head of [validation_step]: "At the start of validation, load the
    EMA weights". *)
Definition load_ema_weights : M state unit :=
  self ← get_self;
  match cached_weights self with
  | None =>
      cloned ← with_heap (λ h,
        let '(c, h') := tensor_tree_map clone_param (af_state_dict (model self)) h in
        (Ok c, h'));
      put_self (set_cached_weights self (Some cloned));;
      with_heap (load_state_dict (af_state_dict (model self))
                   (Some (ema_params (ema self))))
  | Some _ => mret tt
  end.

Definition validation_step (batch : Batch) (batch_idx : nat) : M state unit :=
  load_ema_weights;;
  self ← get_self;
  outputs ← with_heap (forward E (model self) batch);
  let batch := remove_recycling batch in
  let batch := {| aatype := aatype batch;
                  all_atom_positions := all_atom_positions batch;
                  all_atom_mask := all_atom_mask batch;
                  use_clamped_fape := Some 0%Q |} in
  '(_, loss_breakdown) ← lift (loss E outputs batch);
  lift (_log self loss_breakdown batch outputs false).

Definition validation_epoch_end : M state unit :=
  self ← get_self;
  with_heap (load_state_dict (af_state_dict (model self)) (cached_weights self));;
  put_self (set_cached_weights self None).

(** *** Optimizer and learning-rate scheduler *)

(** A parameter group of the optimizer: a dict in which ['initial_lr'] may
    be absent. *)
Record param_group := {
  group_params : list loc;           (* group['params'] *)
  group_lr : float;                  (* group['lr'] *)
  group_eps : float;                 (* group['eps'] *)
  group_initial_lr : option float;   (* group['initial_lr'], when present *)
}.

Record Adam := { param_groups : list param_group }.

(** [torch.optim.Adam(params, lr=lr, eps=eps)] with an iterable of tensors:
    one group, without ['initial_lr']. *)
Definition new_Adam (ps : list loc) (lr eps : float) : result Adam :=
  match ps with
  | [] => Raise (ValueError "optimizer got an empty parameter list")
  | _ => Ok {| param_groups :=
                 [ {| group_params := ps; group_lr := lr; group_eps := eps;
                      group_initial_lr := None |} ] |}
  end.

(** Modelled from the spec: [AlphaFoldLRScheduler] of
    [openfold.utils.lr_schedulers] is not among the sources.  The schedule is
    a pure function [lr(step)] of the step, evaluated once per scheduler
    step; a scheduler told to resume at a recorded step [N ≥ 0] stands at
    [N], so that its next step computes [lr(N+1)]; the sentinel [-1] means
    no resume, and the schedule starts fresh at step 0. *)
Record AlphaFoldLRScheduler := {
  sched_optimizer : Adam;   (* the optimizer it drives *)
  step_no : Z;              (* the step it stands at *)
}.

Definition no_resume : Z := -1.

Definition new_AlphaFoldLRScheduler (optimizer : Adam) (last_epoch : Z)
    : AlphaFoldLRScheduler :=
  {| sched_optimizer := optimizer;
     step_no := if decide (last_epoch = no_resume) then 0 else last_epoch |}.

(** One scheduler step: the new state and the multiplier it computes. *)
Definition scheduler_step (s : AlphaFoldLRScheduler) : AlphaFoldLRScheduler * float :=
  ({| sched_optimizer := sched_optimizer s; step_no := step_no s + 1 |},
   lr_schedule E (step_no s + 1)).

(** The schedule stepped [n] times. *)
Fixpoint scheduler_steps (n : nat) (s : AlphaFoldLRScheduler) : AlphaFoldLRScheduler :=
  match n with
  | O => s
  | S n' => scheduler_steps n' (fst (scheduler_step s))
  end.

Record lr_scheduler_config := {
  scheduler : AlphaFoldLRScheduler;
  interval : string;
  name : string;
}.

Record optimizers := {
  optimizer : Adam;
  lr_scheduler : lr_scheduler_config;
}.

Definition default_learning_rate : float := 1 # 1000.
Definition default_eps : float := 1 # 100000.

Definition configure_optimizers (self : OpenFoldWrapper)
    (learning_rate eps : float) : result optimizers :=
  match new_Adam (parameters (model self)) learning_rate eps with
  | Raise e => Raise e
  | Ok optimizer =>
      let optimizer :=
        if decide (last_lr_step self ≠ -1)%Z then
          {| param_groups :=
               (λ group,
                  match group_initial_lr group with
                  | None => {| group_params := group_params group;
                               group_lr := group_lr group;
                               group_eps := group_eps group;
                               group_initial_lr := Some learning_rate |}
                  | Some _ => group
                  end) <$> param_groups optimizer |}
        else optimizer in
      (* AlphaFoldLRScheduler(optimizer,): no last step is passed, so the
         constructor's default applies *)
      let lr_scheduler := new_AlphaFoldLRScheduler optimizer no_resume in
      Ok {| optimizer := optimizer;
            lr_scheduler := {| scheduler := lr_scheduler;
                               interval := "step";
                               name := "AlphaFoldLRScheduler" |} |}
  end.

(** *** Checkpoint hooks *)

(** [d[k] = v] *)
Definition setitem (d : value) (k : string) (v : value) : result value :=
  match d with
  | VDict m => Ok (VDict (<[k := v]> m))
  | _ => Raise (TypeError "object does not support item assignment")
  end.

(** [{k: v for k, v in params.items() if not "template" in k}] *)
Definition without_template (entries : gmap string value) : gmap string value :=
  filter (λ kv, contains "template" kv.1 = false) entries.

(** [on_load_checkpoint]; [ema] is the very dict stored in the checkpoint,
    so the checkpoint the caller holds changes with it: it is returned. *)
Definition on_load_checkpoint (checkpoint : value) : M state value :=
  self ← get_self;
  ema_sd ← lift (getitem checkpoint "ema");
  ema_sd ← (if negb (template_config_enabled (model self)) then
              entries ← lift (getitem ema_sd "params" ≫= items);
              lift (setitem ema_sd "params" (VDict (without_template entries)))
            else mret ema_sd);
  loaded ← with_heap (ema_load_state_dict E (ema self) ema_sd);
  put_self (set_ema self loaded);;
  lift (setitem checkpoint "ema" ema_sd).

Definition resume_last_lr_step (lr_step : Z) : M state unit :=
  self ← get_self;
  put_self (set_last_lr_step self lr_step).

(** *** The script *)

(** [args.precision] is an int or a string. *)
Inductive precision_arg :=
  | PrecInt (n : Z)
  | PrecStr (s : string).

(** [str(args.precision)] *)
Definition str (p : precision_arg) : string :=
  match p with
  | PrecInt n => pretty n
  | PrecStr s => s
  end.

(** The command-line arguments the script branches on. *)
Record Args := {
  seed : option Z;
  config_preset : string;
  precision : precision_arg;
  num_workers : Z;
  arg_use_openmm : bool;
  arg_add_struct_metrics : bool;
  openmm_weight : float;
  openmm_activation : string;
  arg_write_pdbs : bool;
  output_dir : string;
  jax_param_path : option string;
  resume_from_ckpt : option string;
  resume_model_weights_only : bool;
  script_modules : bool;
  deepspeed_config_path : option string;
  gpus : option Z;
  num_nodes : option Z;
  debug : bool;
}.

(** Names bound at module level: the imports, the definitions and, when the
    file runs as a script, [parser] and [args].  No builtin is called
    [path]. *)
Definition module_globals : list string :=
  [ "argparse"; "logging"; "os"; "random"; "sys"; "time"; "np"; "pl";
    "LearningRateMonitor"; "ModelCheckpoint"; "WandbLogger";
    "DeepSpeedPlugin"; "DDPPlugin"; "SLURMEnvironment"; "torch";
    "model_config"; "OpenFoldDataModule"; "DummyDataLoader"; "AlphaFold";
    "script_preset_"; "residue_constants"; "remove_arguments";
    "EarlyStoppingVerbose"; "ExponentialMovingAverage";
    "import_jax_weights_"; "AlphaFoldLoss"; "lddt_ca";
    "AlphaFoldLRScheduler"; "get_model_basename"; "seed_everything";
    "superimpose"; "tensor_tree_map"; "drmsd"; "gdt_ts"; "gdt_ha";
    "get_fp32_state_dict_from_zero_checkpoint";
    "get_global_step_from_zero_checkpoint"; "PerformanceLoggingCallback";
    "scn_losses"; "OpenFoldWrapper"; "main"; "bool_type";
    "load_jax_params_into_model"; "parser"; "args" ].

(** Reading the variable [x] inside a function with the given locals. *)
Definition read_name {S} (locals : list string) (x : string) : M S unit :=
  if decide (x ∈ locals ++ module_globals) then mret tt
  else raise (NameError ("name '" +:+ x +:+ "' is not defined")).

Definition load_jax_params_into_model (param_path model : pyobj) : M heap pyobj :=
  model_basename ← lift (get_model_basename E param_path);
  let model_version := join "_" (drop 1 (split "_"%char model_basename)) in
  import_jax_weights_ E model param_path model_version;;
  (* logging.info(f"Successfully loaded JAX parameters at {path}...") *)
  read_name ["param_path"; "model"; "model_basename"; "model_version"] "path";;
  mret model.

(** [os.path.join(a, b)] for a relative [b] *)
Definition path_join (a b : string) : string :=
  if decide (a = "") then b
  else if String.eqb (String.substring (String.length a - 1) 1 a) "/"
       then a +:+ b else a +:+ "/" +:+ b.

(** [x is not None and x > 1] *)
Definition some_greater_than_one (x : option Z) : bool :=
  match x with
  | Some n => bool_decide (1 < n)%Z
  | None => false
  end.

(** [x > 1] for an argument that may be [None] *)
Definition greater_than_one (x : option Z) : result bool :=
  match x with
  | Some n => Ok (bool_decide (1 < n)%Z)
  | None => Raise (TypeError "'>' not supported between instances of 'NoneType' and 'int'")
  end.

(** [int(v)] *)
Definition int (v : value) : result Z :=
  match v with
  | VInt z => Ok z
  | VFloat x => Ok (Z.quot (Qnum x) (Zpos (Qden x)))
  | VTensor t => tensor_int E t
  | VDict _ => Raise (TypeError "int() argument must be a string, a bytes-like object or a number, not 'dict'")
  end.

Inductive strategy :=
  | DeepSpeedPlugin (config : string)
  | DDPPlugin (find_unused_parameters : bool).

(** What [main] hands to [trainer.fit]. *)
Record FitCall := {
  fit_module : OpenFoldWrapper;
  fit_strategy : option strategy;
  fit_ckpt_path : option string;
}.

(** Assigning to the child module [model_module.model] *)
Definition assign_model (w : OpenFoldWrapper) (o : pyobj) : result OpenFoldWrapper :=
  match o with
  | PModel m => Ok (set_model w m)
  | PStr _ => Raise (TypeError "cannot assign 'str' as child module 'model' (torch.nn.Module or None expected)")
  end.

(** [main], the configuration: [model_config] and the [config.loss.openmm]
    fields set from the arguments. *)
Definition main_config (args : Args) : Config :=
  let config :=
    model_config E (config_preset args)
      (String.eqb (str (precision args)) "16") (num_workers args) in
  {| ema_decay := ema_decay config; globals_eps := globals_eps config;
     template_enabled := template_enabled config;
     openmm := {| use_openmm := arg_use_openmm args;
                  add_struct_metrics := arg_add_struct_metrics args;
                  weight := openmm_weight args;
                  openmm_activation_fn :=
                    if String.eqb (openmm_activation args) "sigmoid" then Some Sigmoid
                    else if String.eqb (openmm_activation args) "relu" then Some ReLU
                    else None;
                  write_pdbs := arg_write_pdbs args;
                  pdb_dir := path_join (output_dir args) "pdbs" |} |}.

(** [main], the global step of a checkpoint: from the extraction utility
    for a directory, from the ['global_step'] field of the loaded file
    otherwise. *)
Definition last_global_step (ckpt : string) : result Z :=
  if isdir E ckpt then get_global_step_from_zero_checkpoint E ckpt
  else sd ← torch_load E ckpt; getitem sd "global_step" ≫= int.

(** [main], the weights of a checkpoint, with the same branching. *)
Definition checkpoint_weights (ckpt : string) : result value :=
  if isdir E ckpt then get_fp32_state_dict_from_zero_checkpoint E ckpt
  else torch_load E ckpt.

(** [main], the [if]/[elif] on [jax_param_path] and [resume_from_ckpt]. *)
Definition load_jax_or_resume (args : Args) (model_module : OpenFoldWrapper)
    : M heap OpenFoldWrapper :=
  match jax_param_path args with
  | Some jax_path =>
      loaded ← load_jax_params_into_model (PModel (model model_module)) (PStr jax_path);
      lift (assign_model model_module loaded)
  | None =>
      if truthy (resume_from_ckpt args) && negb (resume_model_weights_only args) then
        step ← lift (last_global_step (default "" (resume_from_ckpt args)));
        (* model_module.resume_last_lr_step(last_global_step) *)
        mret (set_last_lr_step model_module step)
      else mret model_module
  end.

(** [{"model." + k: v for k, v in sd.items()}] *)
Definition add_model_prefix (entries : gmap string value) : gmap string value :=
  kmap (M2 := gmap string) (String.append "model.") entries.

(** [main], the weights-only load. *)
Definition load_weights_only (args : Args) (model_module : OpenFoldWrapper)
    : M heap unit :=
  if truthy (resume_from_ckpt args) && resume_model_weights_only args then
    sd ← lift (checkpoint_weights (default "" (resume_from_ckpt args)));
    entries ← lift (items sd);
    module_load_state_dict E model_module (add_model_prefix entries)
  else mret tt.

(** [main], the choice of the strategy.  The plugins are data; [gpus] and
    [num_nodes] are numbers or [None] (a list of devices given as a string is
    outside the model); the saves to the wandb logger under the DeepSpeed
    branch read neither the wrapper nor the choice and are left out. *)
Definition select_strategy (args : Args) : result (option strategy) :=
  match deepspeed_config_path args with
  | Some path => Ok (Some (DeepSpeedPlugin path))
  | None =>
      distributed ←
        (if some_greater_than_one (gpus args) then Ok true
         else greater_than_one (num_nodes args));
      Ok (if distributed : bool then Some (DDPPlugin false) else None)
  end.

(** [main], up to the call of [trainer.fit].  Seeding, the callbacks, the
    loggers and the construction of the trainer read neither the wrapper
    nor [ckpt_path] and are left out. *)
Definition main (args : Args) : M heap FitCall :=
  let config := main_config args in
  lift (makedirs E (pdb_dir (openmm config)));;
  model_module ← new_OpenFoldWrapper config;
  model_module ← load_jax_or_resume args model_module;
  load_weights_only args model_module;;
  (if script_modules args then script_preset_ E model_module else mret tt);;
  lift (data_module_setup E config);;
  strategy ← lift (select_strategy args);
  let ckpt_path :=
    if resume_model_weights_only args then None else resume_from_ckpt args in
  mret {| fit_module := model_module; fit_strategy := strategy;
          fit_ckpt_path := ckpt_path |}.

(** The [if __name__ == "__main__":] block after the arguments are parsed: the
    two checks, then [main].  Setting [reload_dataloaders_every_n_epochs] and
    the logging level touches nothing modelled here. *)
Definition run_script (args : Args) : M heap FitCall :=
  (if bool_decide (seed args = None) &&
      (some_greater_than_one (gpus args) ||
       some_greater_than_one (num_nodes args))
   then raise (ValueError "For distributed training, --seed must be specified")
   else mret tt);;
  (if String.eqb (str (precision args)) "16" &&
      bool_decide (deepspeed_config_path args ≠ None)
   then raise (ValueError "DeepSpeed and FP16 training are not compatible")
   else mret tt);;
  main args.

End Wrapper.

(** ** Further functions of the script *)

(** [c.lower()] on one character.  A string is a sequence of bytes, a
    character outside ASCII a run of bytes above 127, left as it is: only the
    ASCII letters are mapped, and no other character lowers to a letter of
    the words [bool_type] accepts (the Kelvin sign lowers to [k], the dotted
    capital I to [i] with a combining dot, and neither letter is in any of
    the words). *)
Definition lower_char (c : ascii) : ascii :=
  let n := nat_of_ascii c in
  if (65 <=? n) && (n <=? 90) then ascii_of_nat (n + 32) else c.

(** [s.lower()] *)
Fixpoint lower (s : string) : string :=
  match s with
  | EmptyString => EmptyString
  | String c s' => String (lower_char c) (lower s')
  end.

(** [bool_type] *)
Definition bool_type (bool_str : string) : result bool :=
  let bool_str_lower := lower bool_str in
  if decide (bool_str_lower ∈ ["false"; "f"; "no"; "n"; "0"]) then Ok false
  else if decide (bool_str_lower ∈ ["true"; "t"; "yes"; "y"; "1"]) then Ok true
  else Raise (ValueError ("Cannot interpret " +:+ bool_str +:+ " as bool")).

(** [load_jax_params_into_model], the version it hands to the importer:
    ["_".join(model_basename.split("_")[1:])] *)
Definition model_version (model_basename : string) : string :=
  join "_" (drop 1 (split "_"%char model_basename)).

(** [on_save_checkpoint]: [checkpoint["ema"] = self.ema.state_dict()].  The
    tracker's [state_dict] is a collaborator; the checkpoint the caller holds
    is the one returned. *)
Definition on_save_checkpoint
    (ema_state_dict : ExponentialMovingAverage → heap → value)
    (checkpoint : value) : M state value :=
  self ← get_self;
  fragment ← with_heap (λ h, (Ok (ema_state_dict (ema self) h), h));
  lift (setitem checkpoint "ema" fragment).

(** The trainer's validation loop, as the hooks are written for it:
    [validation_step] on every batch in turn, an exception ending the run. *)
Fixpoint validation_steps (E : Collaborators) (batches : list Batch)
    (batch_idx : nat) : M state unit :=
  match batches with
  | [] => mret tt
  | batch :: rest =>
      validation_step E batch batch_idx;;
      validation_steps E rest (S batch_idx)
  end.

(** A validation epoch: the steps, then [validation_epoch_end]. *)
Definition validation_epoch (E : Collaborators) (batches : list Batch)
    : M state unit :=
  validation_steps E batches 0;;
  validation_epoch_end.

(** ** A small instance of the collaborators, for the examples *)

Definition scalar (z : Z) : tensor := {| shape := []; data := [z] |}.
Definition vector (zs : list Z) : tensor := {| shape := [length zs]; data := zs |}.

Definition demo_openmm (metrics : bool) : OpenMMConfig :=
  {| use_openmm := false; add_struct_metrics := metrics; weight := 1%Q;
     openmm_activation_fn := None; write_pdbs := false; pdb_dir := "out/pdbs" |}.

Definition demo_config (metrics : bool) : Config :=
  {| ema_decay := 999 # 1000; globals_eps := 1 # 100000000;
     template_enabled := false; openmm := demo_openmm metrics |}.

(** A network with two tensors, allocated at the end of the heap. *)
Definition demo_new_AlphaFold (c : Config) : M heap AlphaFold :=
  λ h, (Ok {| af_state_dict := [("evoformer.w", length h); ("template.b", S (length h))];
              parameters := [length h; S (length h)];
              template_config_enabled := template_enabled c |},
        h ++ [vector [1; 2]%Z; vector [3]%Z]).

Definition demo_collaborators : Collaborators :=
  {| model_config := λ _ _ _, demo_config true;
     new_AlphaFold := demo_new_AlphaFold;
     new_ExponentialMovingAverage := λ m d h,
       let '(p, h') := tensor_tree_map clone_param (af_state_dict m) h in
       (Ok {| ema_params := p; decay := d |}, h');
     ema_load_state_dict := λ e _ h, (Ok e, h);
     forward := λ _ b h, (Ok {| final_atom_positions := all_atom_positions b |}, h);
     loss := λ _ _, Ok (scalar 0%Z, ∅);
     last_recycling := λ t, t;
     mul := λ x _, x;
     mul_mask := λ x _, x;
     index_ca := λ x, x;
     mask_index_ca := λ x, x;
     reshape := λ x _, x;
     select := λ x _, x;
     lddt_ca := λ _ _ _ _, scalar 1%Z;
     drmsd := λ _ _ _, scalar 0%Z;
     superimpose := λ _ p _, (p, scalar 0%Z);
     gdt_ts := λ _ _ _, scalar 1%Z;
     gdt_ha := λ _ _ _, scalar 1%Z;
     scn_gdc_all := λ _ _, scalar 1%Z;
     scn_tm_score := λ _ _, scalar 1%Z;
     scn_drmsd := λ _ _, scalar 0%Z;
     scn_lddt_all := λ _ _ _ _, scalar 1%Z;
     scn_quasi_lddt_all := λ _ _, scalar 1%Z;
     lr_schedule := λ step, step # 1000;
     isdir := λ p, String.eqb p "ckpt_dir";
     makedirs := λ _, Ok tt;
     torch_load := λ _,
       Ok (VDict (<["global_step" := VInt 7%Z]> (<["w" := VTensor (vector [5]%Z)]> ∅)));
     get_global_step_from_zero_checkpoint := λ _, Ok 42%Z;
     get_fp32_state_dict_from_zero_checkpoint := λ _,
       Ok (VDict (<["w" := VTensor (vector [6]%Z)]> ∅));
     tensor_int := λ _, Raise (ValueError "only one element tensors can be converted to Python scalars");
     module_load_state_dict := λ _ _ h, (Ok tt, h);
     get_model_basename := λ o,
       match o with
       | PStr s => Ok s
       | PModel _ => Raise (TypeError "expected str, bytes or os.PathLike object, not AlphaFold")
       end;
     import_jax_weights_ := λ _ _ _ h, (Ok tt, h);
     script_preset_ := λ _ h, (Ok tt, h);
     data_module_setup := λ _, Ok tt |}.

(** A wrapper in the Live state over a four-cell heap: two model tensors, two
    EMA shadows. *)
Definition demo_model : AlphaFold :=
  {| af_state_dict := [("evoformer.w", 0); ("template.b", 1)];
     parameters := [0; 1];
     template_config_enabled := false |}.

Definition demo_wrapper (metrics : bool) (cache : option state_dict) (step : Z)
    : OpenFoldWrapper :=
  {| config := demo_config metrics; model := demo_model;
     ema := {| ema_params := [("evoformer.w", 2); ("template.b", 3)];
               decay := 999 # 1000 |};
     cached_weights := cache; last_lr_step := step |}.

Definition demo_heap : heap := [vector [1; 2]%Z; vector [3]%Z; vector [10; 20]%Z; vector [30]%Z].

Definition demo_live : state :=
  {| self := demo_wrapper true None (-1); mem := demo_heap |}.

Definition demo_args : Args :=
  {| seed := Some 42%Z; config_preset := "initial_training";
     precision := PrecInt 32; num_workers := 8%Z;
     arg_use_openmm := false; arg_add_struct_metrics := true;
     openmm_weight := 1%Q; openmm_activation := "None";
     arg_write_pdbs := false; output_dir := "out";
     jax_param_path := None; resume_from_ckpt := None;
     resume_model_weights_only := false; script_modules := false;
     deepspeed_config_path := None; gpus := Some 1%Z; num_nodes := Some 1%Z;
     debug := false |}.

(** ** Predicates and examples the properties are stated with *)

(** References of a module point into the heap. *)
Definition allocated (sd : state_dict) (h : heap) : Prop :=
  Forall (λ l, l < length h) (refs sd).

(** Every tensor of the module has, in a cell past [n0], a cached copy of
    what it held in the heap [h0]. *)
Definition restorable (h0 : heap) (n0 : nat) (cache own : state_dict) (h : heap)
    : Prop :=
  ∀ k dst, (k, dst) ∈ own →
    dst < n0 ∧ ∃ c, sd_get k cache = Some c ∧ n0 ≤ c ∧ h !!! c = h0 !!! dst.

(** The Swapped state the swap-in leaves behind on the example: the live
    tensors hold the EMA values, the cache holds the old ones in new cells. *)
Definition demo_swapped : state :=
  {| self := demo_wrapper true (Some [("evoformer.w", 4); ("template.b", 5)]) (-1);
     mem := [vector [10; 20]%Z; vector [30]%Z; vector [10; 20]%Z; vector [30]%Z;
             vector [1; 2]%Z; vector [3]%Z] |}.

(** The keys of the all-atom metrics in the report. *)
Definition all_atom_metrics : list string :=
  ["rmsd_aa"; "gdcall_aa"; "tmscore_aa"; "tmscore_ca"; "drmsd_aa"; "lddt_aa";
   "lddtquasi_aa"].

Definition demo_batch (batch_size : nat) : Batch :=
  {| aatype := {| shape := [batch_size; 2]; data := [] |};
     all_atom_positions := {| shape := [batch_size; 2; 37; 3]; data := [] |};
     all_atom_mask := {| shape := [batch_size; 2; 37]; data := [] |};
     use_clamped_fape := None |}.

Definition demo_outputs (batch_size : nat) : Outputs :=
  {| final_atom_positions := {| shape := [batch_size; 2; 37; 3]; data := [] |} |}.

(** [on_load_checkpoint] hands [fragment] to the EMA tracker, keeps what the
    tracker returns and leaves [fragment] in the checkpoint. *)
Definition loads_fragment (E : Collaborators) (checkpoint fragment : value)
    (st : state) : Prop :=
  on_load_checkpoint E checkpoint st =
    match ema_load_state_dict E (ema (self st)) fragment (mem st) with
    | (Ok loaded, h) =>
        (setitem checkpoint "ema" fragment,
         {| self := set_ema (self st) loaded; mem := h |})
    | (Raise e, h) => (Raise e, {| self := self st; mem := h |})
    end.

(** Variants of the example arguments. *)
Definition with_resume (ckpt : string) (weights_only : bool) (args : Args) : Args :=
  {| seed := seed args; config_preset := config_preset args;
     precision := precision args; num_workers := num_workers args;
     arg_use_openmm := arg_use_openmm args;
     arg_add_struct_metrics := arg_add_struct_metrics args;
     openmm_weight := openmm_weight args;
     openmm_activation := openmm_activation args;
     arg_write_pdbs := arg_write_pdbs args; output_dir := output_dir args;
     jax_param_path := jax_param_path args;
     resume_from_ckpt := Some ckpt;
     resume_model_weights_only := weights_only;
     script_modules := script_modules args;
     deepspeed_config_path := deepspeed_config_path args;
     gpus := gpus args; num_nodes := num_nodes args; debug := debug args |}.

Definition with_jax (jax_path : string) (args : Args) : Args :=
  {| seed := seed args; config_preset := config_preset args;
     precision := precision args; num_workers := num_workers args;
     arg_use_openmm := arg_use_openmm args;
     arg_add_struct_metrics := arg_add_struct_metrics args;
     openmm_weight := openmm_weight args;
     openmm_activation := openmm_activation args;
     arg_write_pdbs := arg_write_pdbs args; output_dir := output_dir args;
     jax_param_path := Some jax_path;
     resume_from_ckpt := resume_from_ckpt args;
     resume_model_weights_only := resume_model_weights_only args;
     script_modules := script_modules args;
     deepspeed_config_path := deepspeed_config_path args;
     gpus := gpus args; num_nodes := num_nodes args; debug := debug args |}.

Definition with_precision (p : precision_arg) (deepspeed : option string)
    (args : Args) : Args :=
  {| seed := seed args; config_preset := config_preset args;
     precision := p; num_workers := num_workers args;
     arg_use_openmm := arg_use_openmm args;
     arg_add_struct_metrics := arg_add_struct_metrics args;
     openmm_weight := openmm_weight args;
     openmm_activation := openmm_activation args;
     arg_write_pdbs := arg_write_pdbs args; output_dir := output_dir args;
     jax_param_path := jax_param_path args;
     resume_from_ckpt := resume_from_ckpt args;
     resume_model_weights_only := resume_model_weights_only args;
     script_modules := script_modules args;
     deepspeed_config_path := deepspeed;
     gpus := gpus args; num_nodes := num_nodes args; debug := debug args |}.

(** The first check of the script passes: a seed is given, or the run is not
    distributed. *)
Definition seed_check_passes (args : Args) : Prop :=
  seed args ≠ None ∨
  some_greater_than_one (gpus args) || some_greater_than_one (num_nodes args) = false.

(** A checkpoint whose EMA fragment has one template key. *)
Definition demo_shadow : gmap string value :=
  <["evoformer.w" := VTensor (vector [10; 20]%Z)]>
    (<["template_pair.w" := VTensor (vector [30]%Z)]> ∅).

Definition demo_fragment : gmap string value :=
  <["params" := VDict demo_shadow]> (<["decay" := VFloat (999 # 1000)]> ∅).

Definition demo_checkpoint : value :=
  VDict (<["ema" := VDict demo_fragment]> (<["global_step" := VInt 7%Z]> ∅)).

(** The collaborators with another result of [torch.load]. *)
Definition with_torch_load (loaded : result value) (E : Collaborators)
    : Collaborators :=
  {| model_config := model_config E;
     new_AlphaFold := new_AlphaFold E;
     new_ExponentialMovingAverage := new_ExponentialMovingAverage E;
     ema_load_state_dict := ema_load_state_dict E;
     forward := forward E; loss := loss E;
     last_recycling := last_recycling E; mul := mul E; mul_mask := mul_mask E;
     index_ca := index_ca E; mask_index_ca := mask_index_ca E;
     reshape := reshape E; select := select E;
     lddt_ca := lddt_ca E; drmsd := drmsd E; superimpose := superimpose E;
     gdt_ts := gdt_ts E; gdt_ha := gdt_ha E;
     scn_gdc_all := scn_gdc_all E; scn_tm_score := scn_tm_score E;
     scn_drmsd := scn_drmsd E; scn_lddt_all := scn_lddt_all E;
     scn_quasi_lddt_all := scn_quasi_lddt_all E;
     lr_schedule := lr_schedule E;
     isdir := isdir E; makedirs := makedirs E;
     torch_load := λ _, loaded;
     get_global_step_from_zero_checkpoint := get_global_step_from_zero_checkpoint E;
     get_fp32_state_dict_from_zero_checkpoint :=
       get_fp32_state_dict_from_zero_checkpoint E;
     tensor_int := tensor_int E;
     module_load_state_dict := module_load_state_dict E;
     get_model_basename := get_model_basename E;
     import_jax_weights_ := import_jax_weights_ E;
     script_preset_ := script_preset_ E;
     data_module_setup := data_module_setup E |}.



(** [c] is an upper-case ASCII letter and [d] the same letter in lower case. *)
Definition case_pair (c d : ascii) : bool :=
  let n := nat_of_ascii c in
  (65 <=? n) && (n <=? 90) && (nat_of_ascii d =? n + 32).

(** Two strings that differ at most in the case of ASCII letters. *)
Fixpoint same_but_for_case (s t : string) : bool :=
  match s, t with
  | EmptyString, EmptyString => true
  | String c s', String d t' =>
      (Ascii.eqb c d || case_pair c d || case_pair d c) && same_but_for_case s' t'
  | _, _ => false
  end.

(** The example arguments on several devices, with a seed or without. *)
Definition with_devices (seed : option Z) (gpus : option Z) (args : Args) : Args :=
  {| seed := seed; config_preset := config_preset args;
     precision := precision args; num_workers := num_workers args;
     arg_use_openmm := arg_use_openmm args;
     arg_add_struct_metrics := arg_add_struct_metrics args;
     openmm_weight := openmm_weight args;
     openmm_activation := openmm_activation args;
     arg_write_pdbs := arg_write_pdbs args; output_dir := output_dir args;
     jax_param_path := jax_param_path args;
     resume_from_ckpt := resume_from_ckpt args;
     resume_model_weights_only := resume_model_weights_only args;
     script_modules := script_modules args;
     deepspeed_config_path := deepspeed_config_path args;
     gpus := gpus; num_nodes := num_nodes args; debug := debug args |}.

(** * Properties *)

(** ** The monad *)

Lemma bind_ok {S A B} (m : M S A) (f : A → M S B) s a s' :
  m s = (Ok a, s') → (m ≫= f) s = f a s'.
Proof. intros Hm. unfold mbind, M_bind, bind. by rewrite Hm. Qed.

Lemma bind_raise {S A B} (m : M S A) (f : A → M S B) s e s' :
  m s = (Raise e, s') → (m ≫= f) s = (Raise e, s').
Proof. intros Hm. unfold mbind, M_bind, bind. by rewrite Hm. Qed.

(** ** State dicts *)

Lemma elem_of_refs (sd : state_dict) k l : (k, l) ∈ sd → l ∈ refs sd.
Proof. intros Hin. apply list_elem_of_fmap. by exists (k, l). Qed.

Lemma elem_of_keys (sd : state_dict) k l : (k, l) ∈ sd → k ∈ keys sd.
Proof. intros Hin. apply list_elem_of_fmap. by exists (k, l). Qed.

(** Looking a key up in a dict that has the same keys, entry by entry. *)
Lemma sd_get_Forall2 (R : string * loc → string * loc → Prop)
    (sd c : state_dict) k l :
  Forall2 (λ kv kc, kc.1 = kv.1 ∧ R kv kc) sd c →
  NoDup (keys sd) →
  (k, l) ∈ sd →
  ∃ cl, sd_get k c = Some cl ∧ R (k, l) (k, cl).
Proof.
  induction 1 as [|[k1 l1] [k2 c2] sd' c' [Hk HR] Hrest IH]; intros Hnd Hin.
  - by apply elem_of_nil in Hin.
  - simpl in Hk. subst k2. apply NoDup_cons in Hnd as [Hfresh Hnd].
    apply elem_of_cons in Hin as [Heq | Hin]; simpl.
    + injection Heq as -> ->. rewrite decide_True by done. eauto.
    + rewrite decide_False.
      * by apply IH.
      * intros ->. apply Hfresh. by eapply elem_of_keys.
Qed.

Lemma unexpected_keys_same (own c : state_dict) :
  keys c = keys own → unexpected_keys own c = [].
Proof.
  intros Hk. unfold unexpected_keys. rewrite Hk.
  assert (Hsub : ∀ l : list string, l ⊆ keys own → filter (λ k, k ∉ keys own) l = []).
  { clear. induction l as [|x l IH]; intros Hsub; [done|].
    rewrite filter_cons_False.
    - apply IH. intros y Hy. apply Hsub. by right.
    - intros Hn. apply Hn, Hsub. by left. }
  by apply Hsub.
Qed.

Lemma Forall2_impl_l {A B} (P : A → Prop) (R R' : A → B → Prop) l k :
  Forall P l → Forall2 R l k → (∀ x y, P x → R x y → R' x y) → Forall2 R' l k.
Proof.
  intros HP HR Himp. induction HR as [|x y l k Hxy _ IH]; [constructor|].
  apply Forall_cons in HP as [Hx HP]. constructor; auto.
Qed.

Lemma Forall2_elem_of_r {A B} (R : A → B → Prop) l k y :
  Forall2 R l k → y ∈ k → ∃ x, x ∈ l ∧ R x y.
Proof.
  induction 1 as [|x y' l k Hxy _ IH]; intros Hin.
  - by apply elem_of_nil in Hin.
  - apply elem_of_cons in Hin as [->|Hin].
    + exists x. split; [by left | done].
    + destruct (IH Hin) as (x' & ? & ?). exists x'. split; [by right | done].
Qed.

(** ** Cloning a state dict *)

(** The clone has the same keys; it lives in new cells past the end of the old
    heap, which is left as it was, and each new cell holds the contents of
    the tensor it copies. *)
Lemma tensor_tree_map_clone (sd : state_dict) : ∀ (h : heap) c h',
  tensor_tree_map clone_param sd h = (c, h') →
  Forall (λ l, l < length h) (refs sd) →
  keys c = keys sd ∧
  length h' = length h + length sd ∧
  (∀ l, l < length h → h' !!! l = h !!! l) ∧
  Forall2 (λ kv kc, kc.1 = kv.1 ∧
                    (length h ≤ kc.2 < length h' ∧ h' !!! kc.2 = h !!! kv.2)) sd c.
Proof.
  induction sd as [|[k l] sd IH]; intros h c h' Hc Hall; simpl in Hc.
  - injection Hc as <- <-.
    split; [done|]. split; [simpl; lia|]. split; [done|]. constructor.
  - destruct (tensor_tree_map clone_param sd (h ++ [h !!! l])) as [rest h2] eqn:Hrest.
    injection Hc as <- <-.
    apply Forall_cons in Hall as [Hl Hall].
    destruct (IH _ _ _ Hrest) as (Hkeys & Hlen & Hold & Hnew).
    { eapply Forall_impl; [exact Hall|].
      intros x Hx. simpl in Hx. rewrite length_app. simpl. lia. }
    assert (Hlen1 : length (h ++ [h !!! l]) = S (length h))
      by (rewrite length_app; simpl; lia).
    rewrite Hlen1 in Hlen, Hold, Hnew.
    assert (Hpre : ∀ x, x < length h → h2 !!! x = h !!! x).
    { intros x Hx. rewrite Hold by lia. by apply lookup_total_app_l. }
    split; [simpl; by f_equal|].
    split; [simpl; lia|].
    split; [done|].
    constructor.
    + simpl. split; [done|]. split; [lia|].
      rewrite Hold by lia. by apply list_lookup_total_middle.
    + eapply Forall2_impl_l; [| exact Hnew |].
      * apply Forall_fmap in Hall. exact Hall.
      * intros [k1 l1] [k2 c2] Hl1 (Hk & Hrange & Hval). simpl in *.
        split; [done|]. split; [lia|].
        rewrite Hval. by apply lookup_total_app_l.
Qed.

(** ** Loading a state dict *)

Lemma insert_shape (h : heap) dst v l :
  shape v = shape (h !!! dst) → shape (<[dst := v]> h !!! l) = shape (h !!! l).
Proof.
  intros Hv. destruct (decide (dst = l)) as [->|Hne].
  - destruct (decide (l < length h)).
    + by rewrite list_lookup_total_insert_eq.
    + by rewrite list_insert_ge by lia.
  - by rewrite list_lookup_total_insert_ne.
Qed.

(** The loop writes only to the module's own tensors, and never changes the
    length of the heap or the shape of a tensor. *)
Lemma load_from_frame (own sd : state_dict) : ∀ (h : heap) errs h',
  load_from own sd h = (errs, h') →
  length h' = length h ∧
  (∀ l, l ∉ refs own → h' !!! l = h !!! l) ∧
  (∀ l, shape (h' !!! l) = shape (h !!! l)).
Proof.
  induction own as [|[k dst] own IH]; intros h errs h' Hl; simpl in Hl.
  - by injection Hl as <- <-.
  - assert (Hskip : ∀ errs0, load_from own sd h = (errs0, h') →
              length h' = length h ∧
              (∀ l, l ∉ refs ((k, dst) :: own) → h' !!! l = h !!! l) ∧
              (∀ l, shape (h' !!! l) = shape (h !!! l))).
    { intros errs0 H0. destruct (IH _ _ _ H0) as (? & Hout & ?).
      split; [done|]. split; [|done].
      intros l Hl'. apply Hout. intros Hin. apply Hl'. by right. }
    destruct (sd_get k sd) as [src|].
    + destruct (decide (shape (h !!! src) = shape (h !!! dst))) as [Hs|Hs].
      * destruct (IH _ _ _ Hl) as (Hlen & Hout & Hsh).
        rewrite length_insert in Hlen.
        split; [done|]. split.
        -- intros l Hl'. rewrite Hout.
           ++ apply list_lookup_total_insert_ne. intros ->. apply Hl'. by left.
           ++ intros Hin. apply Hl'. by right.
        -- intros l. rewrite Hsh. by apply insert_shape.
      * destruct (load_from own sd h) as [errs0 h0] eqn:H0.
        injection Hl as <- <-. by eapply Hskip.
    + destruct (load_from own sd h) as [errs0 h0] eqn:H0.
      injection Hl as <- <-. by eapply Hskip.
Qed.

Section Restore.
(** The heap [h0] before the swap, its length [n0], and a [cache] in cells
    past [n0]. *)
Variables (h0 : heap) (n0 : nat) (cache : state_dict).

Lemma load_from_restore (own : state_dict) : ∀ h : heap,
  restorable h0 n0 cache own h →
  n0 ≤ length h →
  (∀ l, l < n0 → shape (h !!! l) = shape (h0 !!! l)) →
  ∃ h', load_from own cache h = ([], h') ∧
        length h' = length h ∧
        (∀ l, n0 ≤ l → h' !!! l = h !!! l) ∧
        (∀ l, l < n0 → h' !!! l = h0 !!! l ∨ h' !!! l = h !!! l) ∧
        (∀ k dst, (k, dst) ∈ own → h' !!! dst = h0 !!! dst).
Proof.
  induction own as [|[k dst] own IH]; intros h Hres Hlen Hshape.
  - exists h. split; [done|]. split; [done|]. split; [done|].
    split; [auto|]. intros k dst Hin. by apply elem_of_nil in Hin.
  - destruct (Hres k dst) as (Hdst & c & Hget & Hc & Hval); [by left|].
    simpl. rewrite Hget.
    rewrite decide_True by (rewrite Hval; symmetry; by apply Hshape).
    rewrite Hval.
    destruct (IH (<[dst := h0 !!! dst]> h)) as (h' & Hl & Hlen' & Hhigh & Hlow & Hown).
    { intros k' d' Hin.
      destruct (Hres k' d') as (Hd' & c' & Hget' & Hc' & Hval'); [by right|].
      split; [done|]. exists c'. split; [done|]. split; [done|].
      rewrite list_lookup_total_insert_ne by lia. done. }
    { by rewrite length_insert. }
    { intros l Hl. destruct (decide (dst = l)) as [->|Hne].
      - by rewrite list_lookup_total_insert_eq by lia.
      - rewrite list_lookup_total_insert_ne by done. by apply Hshape. }
    rewrite length_insert in Hlen'.
    assert (Hat : h' !!! dst = h0 !!! dst).
    { destruct (Hlow dst Hdst) as [?|Heq]; [done|].
      rewrite Heq. by rewrite list_lookup_total_insert_eq by lia. }
    exists h'. split; [done|]. split; [done|]. split; [|split].
    + intros l Hl'. rewrite Hhigh by done.
      apply list_lookup_total_insert_ne. lia.
    + intros l Hl'. destruct (decide (dst = l)) as [<-|Hne]; [by left|].
      destruct (Hlow l Hl') as [?|Heq]; [by left|].
      right. rewrite Heq. by apply list_lookup_total_insert_ne.
    + intros k' d' Hin. apply elem_of_cons in Hin as [Heq|Hin].
      * by injection Heq as -> ->.
      * by eapply Hown.
Qed.
End Restore.

(** ** The weight swap of the validation epoch *)

Lemma load_ema_weights_live (st : state) :
  cached_weights (self st) = None →
  load_ema_weights st =
    let own := af_state_dict (model (self st)) in
    let '(c, h1) := tensor_tree_map clone_param own (mem st) in
    let '(r, h2) := load_state_dict own (Some (ema_params (ema (self st)))) h1 in
    (r, {| self := set_cached_weights (self st) (Some c); mem := h2 |}).
Proof.
  intros Hlive. unfold load_ema_weights, mbind, M_bind, bind, get_self.
  rewrite Hlive. unfold with_heap, put_self. simpl.
  destruct (tensor_tree_map clone_param (af_state_dict (model (self st))) (mem st))
    as [c h1]. simpl.
  by destruct (load_state_dict (af_state_dict (model (self st)))
                 (Some (ema_params (ema (self st)))) h1) as [[[]|e] h2].
Qed.

Lemma load_ema_weights_swapped (st : state) cache :
  cached_weights (self st) = Some cache →
  load_ema_weights st = (Ok tt, st).
Proof.
  intros Hsw. unfold load_ema_weights, mbind, M_bind, bind, get_self.
  by rewrite Hsw.
Qed.

Lemma validation_epoch_end_unfold (st : state) :
  validation_epoch_end st =
    let '(r, h1) := load_state_dict (af_state_dict (model (self st)))
                      (cached_weights (self st)) (mem st) in
    match r with
    | Ok _ => (Ok tt, {| self := set_cached_weights (self st) None; mem := h1 |})
    | Raise e => (Raise e, {| self := self st; mem := h1 |})
    end.
Proof.
  unfold validation_epoch_end, mbind, M_bind, bind, get_self, with_heap, put_self.
  simpl. by destruct (load_state_dict (af_state_dict (model (self st)))
                       (cached_weights (self st)) (mem st)) as [[[]|e] h1].
Qed.

(** Loading the module's own clone back always succeeds and rewinds the heap
    below [length h0] to [h0]. *)
Lemma load_state_dict_clone (own c : state_dict) (h0 h1 h2 : heap) :
  NoDup (keys own) →
  allocated own h0 →
  tensor_tree_map clone_param own h0 = (c, h1) →
  length h2 = length h1 →
  (∀ l, l ∉ refs own → h2 !!! l = h1 !!! l) →
  (∀ l, shape (h2 !!! l) = shape (h1 !!! l)) →
  ∃ h3, load_state_dict own (Some c) h2 = (Ok tt, h3) ∧
        length h3 = length h2 ∧
        (∀ l, length h0 ≤ l → h3 !!! l = h2 !!! l) ∧
        (∀ l, l < length h0 → h3 !!! l = h0 !!! l).
Proof.
  intros Hnd Halloc Hclone Hlen Hframe Hshape.
  destruct (tensor_tree_map_clone _ _ _ _ Hclone Halloc) as (Hkeys & Hlen1 & Hold & Hnew).
  assert (Hbelow : ∀ l, l ∈ refs own → l < length h0).
  { intros l Hl. unfold allocated in Halloc. rewrite Forall_forall in Halloc. auto. }
  destruct (load_from_restore h0 (length h0) c own h2) as (h3 & Hl & Hlen3 & Hhigh & Hlow & Hown).
  - intros k dst Hin. split; [by eapply Hbelow, elem_of_refs|].
    destruct (sd_get_Forall2 _ _ _ _ _ Hnew Hnd Hin) as (cl & Hget & Hrange & Hval).
    simpl in Hrange, Hval.
    exists cl. split; [done|]. split; [lia|].
    rewrite Hframe; [done|]. intros Hcl. apply Hbelow in Hcl. lia.
  - lia.
  - intros l Hl. by rewrite Hshape, Hold.
  - exists h3. unfold load_state_dict. rewrite Hl, (unexpected_keys_same _ _ Hkeys).
    split; [done|]. split; [done|]. split; [done|].
    intros l Hl0. destruct (Hlow l Hl0) as [?|Heq]; [done|].
    rewrite Heq. destruct (decide (l ∈ refs own)) as [Hin|Hnin].
    + apply list_elem_of_fmap in Hin as ([k d] & -> & Hin).
      simpl in *. rewrite <- Heq. by apply (Hown k d).
    + by rewrite Hframe, Hold.
Qed.

(** C3: taken from the Live state, the swap-in at the head of
    [validation_step] followed by [validation_epoch_end] leaves every tensor
    that existed before the swap, the model's parameters among them, with
    exactly the contents it had.  The cache the swap-in fills shares no tensor
    with the model: it is made of new cells, so the overwrite of the live
    parameters cannot reach it.  The swap-out returns normally and clears the
    cache. *)
Theorem swap_in_swap_out_restores (st : state) :
  cached_weights (self st) = None →
  NoDup (keys (af_state_dict (model (self st)))) →
  allocated (af_state_dict (model (self st))) (mem st) →
  ∃ r st1 st2 cache,
    load_ema_weights st = (r, st1) ∧
    cached_weights (self st1) = Some cache ∧
    (∀ c, c ∈ refs cache → c ∉ refs (af_state_dict (model (self st)))) ∧
    validation_epoch_end st1 = (Ok tt, st2) ∧
    self st2 = self st ∧
    (∀ l, l < length (mem st) → mem st2 !! l = mem st !! l) ∧
    (∀ l, l ∈ refs (af_state_dict (model (self st))) → mem st2 !! l = mem st !! l).
Proof.
  intros Hlive Hnd Halloc.
  destruct st as [w h0]. simpl in *.
  set (own := af_state_dict (model w)) in *.
  rewrite (load_ema_weights_live {| self := w; mem := h0 |} Hlive).
  cbv zeta. cbn [self mem]. fold own.
  destruct (tensor_tree_map clone_param own h0) as [c h1] eqn:Hclone.
  destruct (load_state_dict own (Some (ema_params (ema w))) h1) as [r h2] eqn:Hload.
  assert (Hf : length h2 = length h1 ∧ (∀ l, l ∉ refs own → h2 !!! l = h1 !!! l) ∧
               (∀ l, shape (h2 !!! l) = shape (h1 !!! l))).
  { unfold load_state_dict in Hload.
    destruct (load_from own (ema_params (ema w)) h1) as [errs h2'] eqn:Hlf.
    apply load_from_frame in Hlf.
    destruct errs, (unexpected_keys own (ema_params (ema w)));
      injection Hload as <- <-; exact Hlf. }
  destruct Hf as (Hlen2 & Hframe & Hshape).
  destruct (load_state_dict_clone own c h0 h1 h2 Hnd Halloc Hclone Hlen2 Hframe Hshape)
    as (h3 & Hout & Hlen3 & _ & Hlow).
  destruct (tensor_tree_map_clone _ _ _ _ Hclone Halloc) as (_ & Hlen1 & _ & Hnew).
  assert (Hbelow : ∀ l, l ∈ refs own → l < length h0).
  { intros l Hl. unfold allocated in Halloc. rewrite Forall_forall in Halloc. auto. }
  assert (Hrestored : ∀ l, l < length h0 → h3 !! l = h0 !! l).
  { intros l Hl.
    rewrite (list_lookup_lookup_total_lt h3 l) by lia.
    rewrite (list_lookup_lookup_total_lt h0 l) by lia.
    f_equal. by apply Hlow. }
  exists r, {| self := set_cached_weights w (Some c); mem := h2 |},
         {| self := w; mem := h3 |}, c.
  split; [done|]. split; [done|]. split.
  { intros cl Hcl Hin. apply Hbelow in Hin.
    apply list_elem_of_fmap in Hcl as ([k cl'] & -> & Hcl).
    destruct (Forall2_elem_of_r _ _ _ _ Hnew Hcl) as (kv & _ & _ & Hrange & _).
    simpl in *. lia. }
  split.
  { rewrite validation_epoch_end_unfold. cbn [self mem set_cached_weights
      cached_weights model]. fold own. rewrite Hout.
    destruct w; simpl in *. by rewrite Hlive. }
  split; [done|]. split; [done|].
  intros l Hl. apply Hrestored. by apply Hbelow.
Qed.

Lemma swap_in_swap_out_restores_witness :
  let st := demo_live in
  (cached_weights (self st) = None ∧
   NoDup (keys (af_state_dict (model (self st)))) ∧
   allocated (af_state_dict (model (self st))) (mem st)) ∧
  ∃ r st1 st2 cache,
    load_ema_weights st = (r, st1) ∧
    cached_weights (self st1) = Some cache ∧
    (∀ c, c ∈ refs cache → c ∉ refs (af_state_dict (model (self st)))) ∧
    validation_epoch_end st1 = (Ok tt, st2) ∧
    self st2 = self st ∧
    (∀ l, l < length (mem st) → mem st2 !! l = mem st !! l) ∧
    (∀ l, l ∈ refs (af_state_dict (model (self st))) → mem st2 !! l = mem st !! l).
Proof.
  assert (H1 : cached_weights (self demo_live) = None) by reflexivity.
  assert (H2 : NoDup (keys (af_state_dict (model (self demo_live)))))
    by (apply (bool_decide_unpack _); vm_compute; exact I).
  assert (H3 : allocated (af_state_dict (model (self demo_live))) (mem demo_live))
    by (unfold allocated; apply (bool_decide_unpack _); vm_compute; exact I).
  split; [by repeat split|].
  exact (swap_in_swap_out_restores demo_live H1 H2 H3).
Defined.

Example load_ema_weights_demo : load_ema_weights demo_live = (Ok tt, demo_swapped).
Proof. reflexivity. Qed.

Example validation_epoch_end_demo :
  validation_epoch_end demo_swapped =
    (Ok tt, {| self := demo_wrapper true None (-1);
               mem := demo_heap ++ [vector [1; 2]%Z; vector [3]%Z] |}).
Proof. reflexivity. Qed.

(** The whole of [validation_step] on a later batch of the epoch: no swap, no
    error. *)
Example validation_step_second_batch :
  validation_step demo_collaborators (demo_batch 1) 1 demo_swapped
  = (Ok tt, demo_swapped).
Proof. reflexivity. Qed.

(** Why the cache is cloned: loading the model's own state dict, which holds
    references to the live tensors, brings nothing back. *)
Example load_state_dict_of_references :
  load_state_dict (af_state_dict demo_model) (Some (af_state_dict demo_model))
    (mem demo_swapped)
  = (Ok tt, mem demo_swapped) ∧
  mem demo_swapped !! 0 ≠ mem demo_live !! 0.
Proof. split; [reflexivity | discriminate]. Qed.

(** C2, as the code has it: with a cache present (Swapped) the swap-in at the
    head of [validation_step] is skipped by the [cached_weights is None]
    guard, returns normally and changes neither the live tensors nor the
    cache; with no cache (Live) [validation_epoch_end] raises the
    [AttributeError] of [load_state_dict(None)] and changes nothing. *)
Theorem swap_from_wrong_state (st : state) :
  match cached_weights (self st) with
  | Some _ => load_ema_weights st = (Ok tt, st)
  | None =>
      validation_epoch_end st =
        (Raise (AttributeError "'NoneType' object has no attribute 'copy'"), st)
  end.
Proof.
  destruct (cached_weights (self st)) as [cache|] eqn:Hc.
  - by eapply load_ema_weights_swapped.
  - rewrite validation_epoch_end_unfold, Hc. by destruct st.
Qed.

(** C2 fails as stated: a second swap-in with no swap-out in between raises
    nothing. *)
Lemma second_swap_in_is_silent :
  cached_weights (self demo_swapped) ≠ None ∧
  load_ema_weights demo_swapped = (Ok tt, demo_swapped) ∧
  ¬ ∃ e st', load_ema_weights demo_swapped = (Raise e, st').
Proof.
  split; [done|]. split; [reflexivity|].
  intros (e & st' & Hr). vm_compute in Hr. discriminate Hr.
Qed.

(** ** Resuming the learning-rate schedule *)

Lemma scheduler_steps_step_no E (n : nat) : ∀ s,
  step_no (scheduler_steps E n s) = (step_no s + Z.of_nat n)%Z.
Proof.
  induction n as [|n IH]; intros s; simpl.
  - lia.
  - rewrite IH. simpl. lia.
Qed.

(** An uninterrupted run: after [n] steps from a fresh schedule the next step
    computes [lr(n+1)]. *)
Lemma uninterrupted_multiplier E optimizer (n : nat) :
  snd (scheduler_step E
         (scheduler_steps E n (new_AlphaFoldLRScheduler optimizer no_resume)))
  = lr_schedule E (Z.of_nat n + 1).
Proof.
  unfold scheduler_step. cbn [snd]. by rewrite scheduler_steps_step_no.
Qed.

(** A scheduler that is told the resume point continues the same run. *)
Lemma resumed_multiplier E optimizer (n : nat) :
  snd (scheduler_step E (new_AlphaFoldLRScheduler optimizer (Z.of_nat n)))
  = snd (scheduler_step E
           (scheduler_steps E n (new_AlphaFoldLRScheduler optimizer no_resume))).
Proof.
  rewrite uninterrupted_multiplier. unfold scheduler_step, new_AlphaFoldLRScheduler.
  simpl. rewrite decide_False; [done|]. unfold no_resume. lia.
Qed.

(** On resume every parameter group gets the base learning rate as its
    ['initial_lr']. *)
Lemma configure_optimizers_initial_lr self learning_rate eps o :
  last_lr_step self ≠ (-1)%Z →
  configure_optimizers self learning_rate eps = Ok o →
  Forall (λ g, group_initial_lr g = Some learning_rate) (param_groups (optimizer o)).
Proof.
  intros Hn Ho. unfold configure_optimizers, new_Adam in Ho.
  destruct (parameters (model self)) as [|p ps]; [discriminate|].
  rewrite decide_True in Ho by done. injection Ho as <-. simpl.
  by repeat constructor.
Qed.

(** Whatever step was recorded, the scheduler [configure_optimizers] builds
    is a fresh one, and its first step computes [lr(1)]. *)
Lemma configure_optimizers_scheduler E self learning_rate eps o :
  configure_optimizers self learning_rate eps = Ok o →
  scheduler (lr_scheduler o) = new_AlphaFoldLRScheduler (optimizer o) no_resume ∧
  snd (scheduler_step E (scheduler (lr_scheduler o))) = lr_schedule E 1.
Proof.
  intros Ho. unfold configure_optimizers in Ho.
  destruct (new_Adam _ _ _); [|discriminate].
  by injection Ho as <-.
Qed.

(** C1 at the recorded step 5, with a linear warm-up [lr(step) = step/1000]:
    [configure_optimizers] does set every group's ['initial_lr'] to the base
    learning rate, but the first scheduler step after the resume computes
    [lr(1)], where the uninterrupted run computes [lr(6)]. *)
Theorem resume_step_not_handed_to_scheduler :
  ∃ o,
    configure_optimizers (demo_wrapper true None 5) default_learning_rate default_eps
      = Ok o ∧
    Forall (λ g, group_initial_lr g = Some default_learning_rate)
      (param_groups (optimizer o)) ∧
    snd (scheduler_step demo_collaborators (scheduler (lr_scheduler o))) = 1 # 1000 ∧
    snd (scheduler_step demo_collaborators
           (scheduler_steps demo_collaborators 5
              (new_AlphaFoldLRScheduler (optimizer o) no_resume)))
      = 6 # 1000 ∧
    ¬ (1 # 1000 == 6 # 1000)%Q.
Proof.
  eexists. split; [reflexivity|].
  split; [by repeat constructor|].
  split; [reflexivity|]. split; [reflexivity|].
  intros Heq. unfold Qeq in Heq. simpl in Heq. lia.
Qed.

(** ** Structural metrics *)

(** C4: with the structure metrics switched on and superimposition metrics
    requested, a batch dimension above 1 makes [_compute_validation_metrics]
    fail on its assertion; a batch dimension of exactly 1 passes it, and the
    report then carries every all-atom metric. *)
Theorem all_atom_metrics_need_batch_size_one E (self : OpenFoldWrapper)
    (batch : Batch) (outputs : Outputs) (batch_size : nat) (dims : list nat) :
  add_struct_metrics (openmm (config self)) = true →
  shape (all_atom_positions batch) = batch_size :: dims →
  (1 < batch_size →
   _compute_validation_metrics E self batch outputs true
   = Raise (AssertionError "Structure metrics only supported for batchsize of 1.")) ∧
  (batch_size = 1 →
   ∃ metrics, _compute_validation_metrics E self batch outputs true = Ok metrics ∧
              Forall (λ k, is_Some (metrics !! k)) all_atom_metrics).
Proof.
  intros Hflag Hshape. unfold _compute_validation_metrics.
  rewrite Hflag, Hshape. simpl andb. cbv iota.
  destruct (superimpose E _ _ _) as [superimposed_pred alignment_rmsd].
  split.
  - intros Hb. rewrite decide_False by lia. done.
  - intros ->. rewrite decide_True by done.
    destruct (superimpose E _ _ _) as [flat_superimposed_pred_aa rmsd_all].
    eexists. split; [reflexivity|].
    unfold all_atom_metrics. repeat constructor; by simplify_map_eq.
Qed.

Lemma all_atom_metrics_need_batch_size_one_witness :
  _compute_validation_metrics demo_collaborators (demo_wrapper true None (-1))
    (demo_batch 2) (demo_outputs 2) true
  = Raise (AssertionError "Structure metrics only supported for batchsize of 1.") ∧
  ∃ metrics,
    _compute_validation_metrics demo_collaborators (demo_wrapper true None (-1))
      (demo_batch 1) (demo_outputs 1) true = Ok metrics ∧
    Forall (λ k, is_Some (metrics !! k)) all_atom_metrics.
Proof.
  split.
  - apply (all_atom_metrics_need_batch_size_one demo_collaborators
             (demo_wrapper true None (-1)) (demo_batch 2) (demo_outputs 2) 2 [2; 37; 3]);
      [reflexivity | reflexivity | lia].
  - apply (all_atom_metrics_need_batch_size_one demo_collaborators
             (demo_wrapper true None (-1)) (demo_batch 1) (demo_outputs 1) 1 [2; 37; 3]);
      reflexivity.
Defined.

(** ** Template keys of an EMA fragment *)

Lemma prefix_app (sub : string) : ∀ s,
  String.prefix sub s = true ↔ ∃ post, s = sub +:+ post.
Proof.
  induction sub as [|a sub IH]; intros s.
  - split; [|by destruct s]. intros _. by exists s.
  - destruct s as [|b s]; simpl.
    + split; [done|]. by intros [post ?].
    + destruct (Ascii.ascii_dec a b) as [->|Hne].
      * rewrite IH. split; intros [post Hp]; exists post.
        -- by rewrite Hp.
        -- by injection Hp.
      * split; [done|]. intros [post Hp]. by injection Hp.
Qed.

(** [contains sub s] is Python's [sub in s]: [sub] occurs somewhere in [s]. *)
Lemma contains_spec (sub s : string) :
  contains sub s = true ↔ ∃ pre post, s = pre +:+ sub +:+ post.
Proof.
  induction s as [|a s IH].
  - change (contains sub "") with (String.prefix sub "" || false).
    rewrite orb_false_r, prefix_app. split.
    + intros [post Hp]. by exists "", post.
    + intros (pre & post & Hp). destruct pre; [by exists post | done].
  - change (contains sub (String a s))
      with (String.prefix sub (String a s) || contains sub s).
    rewrite orb_true_iff, prefix_app, IH. split.
    + intros [[post Hp] | (pre & post & Hp)].
      * by exists "", post.
      * exists (String a pre), post. simpl. by rewrite Hp.
    + intros (pre & post & Hp). destruct pre as [|b pre]; simpl in Hp.
      * left. by exists post.
      * right. injection Hp as -> ->. by exists pre, post.
Qed.

(** What the comprehension keeps: the entries whose key has no occurrence of
    ["template"], each with its value. *)
Lemma without_template_lookup (entries : gmap string value) k v :
  without_template entries !! k = Some v ↔
  entries !! k = Some v ∧ ¬ ∃ pre post, k = pre +:+ "template" +:+ post.
Proof.
  unfold without_template. rewrite map_lookup_filter_Some. simpl.
  rewrite <- contains_spec. rewrite not_true_iff_false. done.
Qed.

(** C5: with templates disabled the hook loads the checkpoint's EMA fragment
    with its shadow parameters cut down to the keys in which ["template"]
    does not occur, each kept with its value; with templates enabled it loads
    the fragment as it is. *)
Theorem on_load_checkpoint_filters_template_keys E (st : state)
    (checkpoint : value) (fragment : gmap string value) :
  getitem checkpoint "ema" = Ok (VDict fragment) →
  (template_config_enabled (model (self st)) = true →
   loads_fragment E checkpoint (VDict fragment) st) ∧
  (template_config_enabled (model (self st)) = false →
   ∀ shadow, fragment !! "params" = Some (VDict shadow) →
     loads_fragment E checkpoint
       (VDict (<["params" := VDict (without_template shadow)]> fragment)) st ∧
     (∀ k v, without_template shadow !! k = Some v ↔
             shadow !! k = Some v ∧ ¬ ∃ pre post, k = pre +:+ "template" +:+ post)).
Proof.
  intros Hema. split.
  - intros Hen. unfold loads_fragment, on_load_checkpoint.
    unfold mbind, M_bind, bind, get_self, lift, with_heap, put_self.
    rewrite Hema, Hen. simpl.
    by destruct (ema_load_state_dict E (ema (self st)) (VDict fragment) (mem st))
      as [[loaded|e] h].
  - intros Hdis shadow Hparams. split; [|apply without_template_lookup].
    unfold loads_fragment, on_load_checkpoint.
    unfold mbind, M_bind, bind, get_self, lift, with_heap, put_self.
    rewrite Hema, Hdis. simpl. rewrite Hparams. simpl.
    by destruct (ema_load_state_dict E (ema (self st)) _ (mem st))
      as [[loaded|e] h].
Qed.

(** ** The script: resuming from a checkpoint *)

Lemma bind_inv_ok {S A B} (m : M S A) (f : A → M S B) s b s' :
  (m ≫= f) s = (Ok b, s') → ∃ a s1, m s = (Ok a, s1) ∧ f a s1 = (Ok b, s').
Proof.
  unfold mbind, M_bind, bind. destruct (m s) as [[a|e] s1]; intros Hr.
  - by exists a, s1.
  - discriminate Hr.
Qed.

Lemma lift_inv_ok {S A} (r : result A) (s s' : S) a :
  lift r s = (Ok a, s') → r = Ok a ∧ s' = s.
Proof. unfold lift. by intros [= -> ->]. Qed.

Lemma mret_inv_ok {S A} (a b : A) (s s' : S) :
  mret (M := M S) a s = (Ok b, s') → b = a ∧ s' = s.
Proof. unfold mret, M_ret, ret. by intros [= -> ->]. Qed.

#[global] Instance append_inj (p : string) : Inj (=) (=) (String.append p).
Proof.
  intros a b. induction p as [|c p IH]; simpl; [done|].
  intros [= Heq]. by apply IH.
Qed.

(** The constructor leaves the wrapper Live, with the no-resume sentinel. *)
Lemma new_OpenFoldWrapper_fresh E config h w h' :
  new_OpenFoldWrapper E config h = (Ok w, h') →
  last_lr_step w = (-1)%Z ∧ cached_weights w = None.
Proof.
  unfold new_OpenFoldWrapper. intros Hw.
  apply bind_inv_ok in Hw as (m & h1 & _ & Hw).
  apply bind_inv_ok in Hw as (e & h2 & _ & Hw).
  apply mret_inv_ok in Hw as [-> _]. done.
Qed.

(** [path] is neither a local of [load_jax_params_into_model] nor a name of
    the module. *)
Lemma path_is_unbound {S} (s : S) :
  read_name ["param_path"; "model"; "model_basename"; "model_version"] "path" s
  = (Raise (NameError "name 'path' is not defined"), s).
Proof.
  unfold read_name. rewrite decide_False; [done|].
  apply (bool_decide_unpack _). vm_compute. exact I.
Qed.

Lemma load_jax_params_into_model_raises E param_path model h :
  ∃ e h', load_jax_params_into_model E param_path model h = (Raise e, h').
Proof.
  unfold load_jax_params_into_model, mbind, M_bind, bind, lift.
  destruct (get_model_basename E param_path) as [b|e]; [|by eauto].
  destruct (import_jax_weights_ E model param_path _ h) as [[[]|e] h1]; [|by eauto].
  rewrite path_is_unbound. eauto.
Qed.

Lemma load_jax_or_resume_jax E args w h jax_path :
  jax_param_path args = Some jax_path →
  ∃ e h', load_jax_or_resume E args w h = (Raise e, h') ∧
          load_jax_params_into_model E (PModel (model w)) (PStr jax_path) h = (Raise e, h').
Proof.
  intros Hjax. unfold load_jax_or_resume. rewrite Hjax.
  destruct (load_jax_params_into_model_raises E (PModel (model w)) (PStr jax_path) h)
    as (e & h' & Hr).
  exists e, h'. split; [|done]. by eapply bind_raise.
Qed.

(** What a returning [main] went through. *)
Lemma main_inv E args h call h' :
  main E args h = (Ok call, h') →
  ∃ w0 h0 h1 h2,
    new_OpenFoldWrapper E (main_config E args) h = (Ok w0, h0) ∧
    load_jax_or_resume E args w0 h0 = (Ok (fit_module call), h1) ∧
    load_weights_only E args (fit_module call) h1 = (Ok tt, h2) ∧
    fit_ckpt_path call =
      (if resume_model_weights_only args then None else resume_from_ckpt args).
Proof.
  unfold main. cbv zeta. intros Hm.
  apply bind_inv_ok in Hm as ([] & s1 & Hmk & Hm).
  apply lift_inv_ok in Hmk as [_ ->].
  apply bind_inv_ok in Hm as (w0 & h0 & Hnew & Hm).
  apply bind_inv_ok in Hm as (w1 & h1 & Hres & Hm).
  apply bind_inv_ok in Hm as ([] & h2 & Hwo & Hm).
  apply bind_inv_ok in Hm as ([] & h3 & _ & Hm).
  apply bind_inv_ok in Hm as ([] & h4 & _ & Hm).
  apply bind_inv_ok in Hm as (strat & h5 & _ & Hm).
  apply mret_inv_ok in Hm as [-> _]. simpl.
  by exists w0, h0, h1, h2.
Qed.

Lemma main_no_jax E args h call h' :
  main E args h = (Ok call, h') → jax_param_path args = None.
Proof.
  intros Hm. apply main_inv in Hm as (w0 & h0 & h1 & h2 & _ & Hres & _).
  destruct (jax_param_path args) as [jax_path|] eqn:Hjax; [|done].
  destruct (load_jax_or_resume_jax E args w0 h0 jax_path Hjax) as (e & h'' & Hr & _).
  rewrite Hr in Hres. discriminate Hres.
Qed.

(** C6: on a full resume from the checkpoint [ckpt], the step [main] records
    in [last_lr_step] of the wrapper it hands to the trainer is the one the
    sharded-checkpoint utility extracts when [ckpt] is a directory, and the
    integer in the ['global_step'] field of the loaded file when it is not. *)
Theorem full_resume_records_global_step E (args : Args) (h : heap)
    (ckpt : string) (call : FitCall) (h' : heap) :
  resume_from_ckpt args = Some ckpt →
  ckpt ≠ "" →
  resume_model_weights_only args = false →
  main E args h = (Ok call, h') →
  (isdir E ckpt = true →
   get_global_step_from_zero_checkpoint E ckpt = Ok (last_lr_step (fit_module call))) ∧
  (isdir E ckpt = false →
   ∃ sd field, torch_load E ckpt = Ok sd ∧
               getitem sd "global_step" = Ok field ∧
               int E field = Ok (last_lr_step (fit_module call))) ∧
  fit_ckpt_path call = Some ckpt.
Proof.
  intros Hckpt Hne Hfull Hm.
  pose proof (main_no_jax _ _ _ _ _ Hm) as Hjax.
  apply main_inv in Hm as (w0 & h0 & h1 & h2 & _ & Hres & _ & Hpath).
  rewrite Hfull, Hckpt in Hpath.
  unfold load_jax_or_resume in Hres. rewrite Hjax, Hckpt, Hfull in Hres.
  assert (Htruthy : truthy (Some ckpt) = true).
  { simpl. apply negb_true_iff, String.eqb_neq. done. }
  rewrite Htruthy in Hres. simpl in Hres.
  apply bind_inv_ok in Hres as (step & h3 & Hstep & Hres).
  apply lift_inv_ok in Hstep as [Hstep ->].
  apply mret_inv_ok in Hres as [Hw _].
  assert (Hrec : last_lr_step (fit_module call) = step) by (by rewrite Hw).
  rewrite Hrec. unfold last_global_step in Hstep.
  split; [|split; [|done]].
  - intros Hdir. by rewrite Hdir in Hstep.
  - intros Hfile. rewrite Hfile in Hstep.
    destruct (torch_load E ckpt) as [sd|e]; [|discriminate].
    simpl in Hstep. exists sd.
    destruct (getitem sd "global_step") as [field|e]; [|discriminate].
    by exists field.
Qed.

Lemma full_resume_records_global_step_witness :
  ∃ call h',
    main demo_collaborators (with_resume "last.ckpt" false demo_args) [] = (Ok call, h') ∧
    last_lr_step (fit_module call) = 7%Z ∧
    fit_ckpt_path call = Some "last.ckpt".
Proof.
  destruct (main demo_collaborators (with_resume "last.ckpt" false demo_args) [])
    as [[call|e] h'] eqn:Hm; [|vm_compute in Hm; discriminate Hm].
  exists call, h'. split; [done|].
  destruct (full_resume_records_global_step demo_collaborators
              (with_resume "last.ckpt" false demo_args) [] "last.ckpt" call h')
    as (_ & Hfile & Hpath);
    [reflexivity | done | reflexivity | exact Hm |].
  split; [|exact Hpath].
  destruct Hfile as (sd & field & Hload & Hfield & Hint); [reflexivity|].
  injection Hload as <-. vm_compute in Hfield. injection Hfield as <-.
  simpl in Hint. by injection Hint.
Defined.

(** ** The script: loading weights only *)

Lemma add_model_prefix_lookup (entries : gmap string value) k :
  add_model_prefix entries !! ("model." +:+ k) = entries !! k.
Proof. unfold add_model_prefix. apply (lookup_kmap (String.append "model.")). Qed.




(** ** The script: JAX parameters *)

(** C9: [load_jax_params_into_model] never returns: whatever its
    collaborators do, it raises, and when they both return it is the
    [NameError] of the unbound [path] in its log line.  [main] calls it with
    the model in the place of [param_path] and the path in the place of
    [model], and so a run with [jax_param_path] raises before the trainer is
    reached. *)
Theorem jax_loading_always_raises E :
  (∀ param_path model h,
     (∃ e h', load_jax_params_into_model E param_path model h = (Raise e, h')) ∧
     (∀ basename h1,
        get_model_basename E param_path = Ok basename →
        import_jax_weights_ E model param_path
          (join "_" (drop 1 (split "_"%char basename))) h = (Ok tt, h1) →
        load_jax_params_into_model E param_path model h
        = (Raise (NameError "name 'path' is not defined"), h1))) ∧
  (∀ args h jax_path,
     jax_param_path args = Some jax_path →
     (∃ e h', main E args h = (Raise e, h')) ∧
     (∀ w h0,
        makedirs E (pdb_dir (openmm (main_config E args))) = Ok tt →
        new_OpenFoldWrapper E (main_config E args) h = (Ok w, h0) →
        ∃ e h', main E args h = (Raise e, h') ∧
                load_jax_params_into_model E (PModel (model w)) (PStr jax_path) h0
                = (Raise e, h'))).
Proof.
  split.
  - intros param_path model h.
    split; [apply load_jax_params_into_model_raises|].
    intros basename h1 Hb Himp.
    unfold load_jax_params_into_model, mbind, M_bind, bind, lift.
    rewrite Hb, Himp. by rewrite path_is_unbound.
  - intros args h jax_path Hjax.
    assert (Hstart : ∀ w h0,
      makedirs E (pdb_dir (openmm (main_config E args))) = Ok tt →
      new_OpenFoldWrapper E (main_config E args) h = (Ok w, h0) →
      ∃ e h', main E args h = (Raise e, h') ∧
              load_jax_params_into_model E (PModel (model w)) (PStr jax_path) h0
              = (Raise e, h')).
    { intros w h0 Hmk Hnew.
      destruct (load_jax_or_resume_jax E args w h0 jax_path Hjax) as (e & h' & Hr & Hl).
      exists e, h'. split; [|done].
      unfold main. cbv zeta.
      erewrite bind_ok; [|unfold lift; by rewrite Hmk].
      erewrite bind_ok; [|exact Hnew].
      by eapply bind_raise. }
    split.
    + destruct (makedirs E (pdb_dir (openmm (main_config E args)))) as [[]|e] eqn:Hmk.
      * destruct (new_OpenFoldWrapper E (main_config E args) h) as [[w|e] h0] eqn:Hnew.
        -- destruct (Hstart w h0 eq_refl eq_refl) as (e & h' & Hr & _).
           exists e, h'. exact Hr.
        -- exists e, h0. unfold main. cbv zeta.
           erewrite bind_ok; [|unfold lift; by rewrite Hmk].
           by eapply bind_raise.
      * exists e, h. unfold main. cbv zeta.
        eapply bind_raise. unfold lift. by rewrite Hmk.
    + exact Hstart.
Qed.

Lemma jax_loading_always_raises_witness :
  load_jax_params_into_model demo_collaborators
    (PStr "params_model_1_ptm.npz") (PModel demo_model) []
  = (Raise (NameError "name 'path' is not defined"), []) ∧
  ∃ e h', main demo_collaborators (with_jax "params_model_1_ptm.npz" demo_args) []
          = (Raise e, h').
Proof.
  destruct (jax_loading_always_raises demo_collaborators) as [Hload Hmain]. split.
  - destruct (Hload (PStr "params_model_1_ptm.npz") (PModel demo_model) [])
      as [_ Hname].
    apply (Hname "params_model_1_ptm.npz" []); reflexivity.
  - destruct (Hmain (with_jax "params_model_1_ptm.npz" demo_args) []
                "params_model_1_ptm.npz" eq_refl) as [Hr _].
    exact Hr.
Defined.

(** ** The script: weights-only resume and the schedule *)

(** C10: when a checkpoint is given with the weights-only flag, the wrapper
    [main] hands to the trainer still has the sentinel [-1] in
    [last_lr_step], no checkpoint path goes to the trainer, and the scheduler
    [configure_optimizers] builds for that wrapper stands at step 0: its
    first step computes [lr(1)], whatever global step the checkpoint holds. *)
Theorem weights_only_resume_starts_schedule_fresh E (args : Args) (h : heap)
    (ckpt : string) (call : FitCall) (h' : heap) :
  resume_from_ckpt args = Some ckpt →
  resume_model_weights_only args = true →
  main E args h = (Ok call, h') →
  last_lr_step (fit_module call) = (-1)%Z ∧
  fit_ckpt_path call = None ∧
  ∀ learning_rate eps o,
    configure_optimizers (fit_module call) learning_rate eps = Ok o →
    step_no (scheduler (lr_scheduler o)) = 0%Z ∧
    snd (scheduler_step E (scheduler (lr_scheduler o))) = lr_schedule E 1.
Proof.
  intros Hckpt Hwo Hm.
  pose proof (main_no_jax _ _ _ _ _ Hm) as Hjax.
  apply main_inv in Hm as (w0 & h0 & h1 & h2 & Hnew & Hres & _ & Hpath).
  rewrite Hwo in Hpath.
  unfold load_jax_or_resume in Hres. rewrite Hjax, Hwo, andb_false_r in Hres.
  apply mret_inv_ok in Hres as [Hw _].
  apply new_OpenFoldWrapper_fresh in Hnew as [Hstep _].
  split; [by rewrite Hw|]. split; [done|].
  intros learning_rate eps o Ho.
  destruct (configure_optimizers_scheduler E _ _ _ _ Ho) as [Hs Hfirst].
  split; [by rewrite Hs | done].
Qed.

Lemma weights_only_resume_starts_schedule_fresh_witness :
  ∃ call h',
    main demo_collaborators (with_resume "last.ckpt" true demo_args) [] = (Ok call, h') ∧
    last_global_step demo_collaborators "last.ckpt" = Ok 7%Z ∧
    last_lr_step (fit_module call) = (-1)%Z ∧
    fit_ckpt_path call = None.
Proof.
  destruct (main demo_collaborators (with_resume "last.ckpt" true demo_args) [])
    as [[call|e] h'] eqn:Hm; [|vm_compute in Hm; discriminate Hm].
  destruct (weights_only_resume_starts_schedule_fresh demo_collaborators
              (with_resume "last.ckpt" true demo_args) [] "last.ckpt" call h')
    as (Hstep & Hpath & _); [reflexivity | reflexivity | exact Hm |].
  exists call, h'. split; [done|]. split; [by vm_compute|]. by split.
Defined.

(** ** Start-up checks *)

(** C8: with [--precision 16] and a DeepSpeed configuration together the
    script stops with a [ValueError] before [main] is entered and with the
    heap untouched; it is the DeepSpeed/FP16 error unless the seed check
    failed first.  Without that combination the check lets the run through to
    [main]. *)
Theorem fp16_with_deepspeed_is_fatal E (args : Args) (h : heap) :
  (str (precision args) = "16" →
   deepspeed_config_path args ≠ None →
   ∃ msg, run_script E args h = (Raise (ValueError msg), h) ∧
          (seed_check_passes args →
           msg = "DeepSpeed and FP16 training are not compatible")) ∧
  (¬ (str (precision args) = "16" ∧ deepspeed_config_path args ≠ None) →
   seed_check_passes args →
   run_script E args h = main E args h).
Proof.
  unfold run_script, seed_check_passes, mbind, M_bind, bind, raise.
  split.
  - intros Hp Hd. rewrite Hp. simpl String.eqb.
    rewrite (bool_decide_eq_true_2 _ Hd). simpl.
    destruct (bool_decide (seed args = None)) eqn:Hseed;
      destruct (some_greater_than_one (gpus args) || some_greater_than_one (num_nodes args))
        eqn:Hdist; simpl.
    + eexists. split; [reflexivity|].
      apply bool_decide_eq_true_1 in Hseed. intros [Hs|Hn]; [done | discriminate Hn].
    + by eexists.
    + by eexists.
    + by eexists.
  - intros Hno Hseed.
    assert (Hfirst : bool_decide (seed args = None) &&
              (some_greater_than_one (gpus args) || some_greater_than_one (num_nodes args))
              = false).
    { destruct Hseed as [Hs|Hn].
      - by rewrite (bool_decide_eq_false_2 _ Hs).
      - rewrite Hn. apply andb_false_r. }
    rewrite Hfirst. simpl.
    assert (Hsecond : String.eqb (str (precision args)) "16" &&
              bool_decide (deepspeed_config_path args ≠ None) = false).
    { apply andb_false_iff.
      destruct (String.eqb (str (precision args)) "16") eqn:Hp; [|by left].
      right. apply bool_decide_eq_false_2. intros Hd. apply Hno.
      split; [by apply String.eqb_eq | done]. }
    rewrite Hsecond. done.
Qed.

Lemma fp16_with_deepspeed_is_fatal_witness :
  run_script demo_collaborators
    (with_precision (PrecInt 16) (Some "deepspeed.json") demo_args) []
  = (Raise (ValueError "DeepSpeed and FP16 training are not compatible"), []) ∧
  run_script demo_collaborators (with_precision (PrecInt 16) None demo_args) []
  = main demo_collaborators (with_precision (PrecInt 16) None demo_args) [].
Proof.
  split.
  - destruct (fp16_with_deepspeed_is_fatal demo_collaborators
                (with_precision (PrecInt 16) (Some "deepspeed.json") demo_args) [])
      as [Hfatal _].
    destruct Hfatal as (msg & Hr & Hmsg); [reflexivity | done |].
    rewrite Hr, Hmsg; [reflexivity|]. by left.
  - destruct (fp16_with_deepspeed_is_fatal demo_collaborators
                (with_precision (PrecInt 16) None demo_args) [])
      as [_ Hpass].
    apply Hpass; [|by left]. by intros [_ Hd].
Defined.

(** ** The EMA fragment of a checkpoint, on an example *)

Lemma on_load_checkpoint_filters_template_keys_witness :
  loads_fragment demo_collaborators demo_checkpoint
    (VDict (<["params" := VDict (without_template demo_shadow)]> demo_fragment))
    demo_live ∧
  without_template demo_shadow !! "evoformer.w" = Some (VTensor (vector [10; 20]%Z)) ∧
  without_template demo_shadow !! "template_pair.w" = None.
Proof.
  destruct (on_load_checkpoint_filters_template_keys demo_collaborators demo_live
              demo_checkpoint demo_fragment) as [_ Hdis]; [by vm_compute|].
  destruct (Hdis eq_refl demo_shadow) as [Hload Hkeys]; [by vm_compute|].
  split; [exact Hload|]. split.
  - apply Hkeys. split; [by vm_compute|].
    rewrite <- contains_spec. by vm_compute.
  - destruct (without_template demo_shadow !! "template_pair.w") as [v|] eqn:Hl; [|done].
    apply Hkeys in Hl as [_ Hn]. exfalso. apply Hn.
    by exists "", "_pair.w".
Defined.

(** * Further properties *)

(** ** The swap, step by step *)

Lemma load_state_dict_frame (own : state_dict) sd (h : heap) r h' :
  load_state_dict own sd h = (r, h') →
  length h' = length h ∧
  (∀ l, l ∉ refs own → h' !!! l = h !!! l) ∧
  (∀ l, shape (h' !!! l) = shape (h !!! l)).
Proof.
  unfold load_state_dict. destruct sd as [sd|].
  - destruct (load_from own sd h) as [errs h2] eqn:Hl.
    apply load_from_frame in Hl.
    destruct errs, (unexpected_keys own sd); intros [= <- <-]; exact Hl.
  - by intros [= <- <-].
Qed.

(** What the swap-in does from the Live state, result and exception alike. *)
Lemma load_ema_weights_live_inv (st : state) r st1 :
  cached_weights (self st) = None →
  load_ema_weights st = (r, st1) →
  ∃ c h1,
    tensor_tree_map clone_param (af_state_dict (model (self st))) (mem st) = (c, h1) ∧
    self st1 = set_cached_weights (self st) (Some c) ∧
    load_state_dict (af_state_dict (model (self st)))
      (Some (ema_params (ema (self st)))) h1 = (r, mem st1).
Proof.
  intros Hlive. rewrite (load_ema_weights_live st Hlive). cbv zeta.
  destruct (tensor_tree_map clone_param (af_state_dict (model (self st))) (mem st))
    as [c h1].
  destruct (load_state_dict (af_state_dict (model (self st)))
              (Some (ema_params (ema (self st)))) h1) as [r' h2] eqn:Hload.
  intros [= <- <-]. by exists c, h1.
Qed.

(** The swap-out after the swap-in, whatever the swap-in returned. *)
Lemma epoch_end_after_head (st : state) r st1 :
  cached_weights (self st) = None →
  NoDup (keys (af_state_dict (model (self st)))) →
  allocated (af_state_dict (model (self st))) (mem st) →
  load_ema_weights st = (r, st1) →
  ∃ st2, validation_epoch_end st1 = (Ok tt, st2) ∧
         self st2 = self st ∧
         (∀ l, l < length (mem st) → mem st2 !! l = mem st !! l).
Proof.
  intros Hlive Hnd Halloc Hhead.
  destruct (load_ema_weights_live_inv st r st1 Hlive Hhead) as (c & h1 & Hclone & Hself & Hload).
  destruct (load_state_dict_frame _ _ _ _ _ Hload) as (Hlen & Hframe & Hshape).
  destruct (load_state_dict_clone _ c (mem st) h1 (mem st1) Hnd Halloc Hclone
              Hlen Hframe Hshape) as (h3 & Hout & Hlen3 & _ & Hlow).
  destruct (tensor_tree_map_clone _ _ _ _ Hclone Halloc) as (_ & Hlen1 & _ & _).
  exists {| self := self st; mem := h3 |}.
  split; [|split; [done|]].
  - rewrite validation_epoch_end_unfold, Hself.
    cbn [set_cached_weights cached_weights model]. rewrite Hout.
    destruct (self st); simpl in *. by rewrite Hlive.
  - intros l Hl. cbn [mem].
    rewrite (list_lookup_lookup_total_lt h3 l) by lia.
    rewrite (list_lookup_lookup_total_lt (mem st) l) by lia.
    f_equal. by apply Hlow.
Qed.

(** The state [validation_step] leaves is the one its head leaves, when the
    forward pass writes to no tensor. *)
Lemma validation_step_state E (batch : Batch) batch_idx (st : state) r st' :
  (∀ m h, snd (forward E m batch h) = h) →
  validation_step E batch batch_idx st = (r, st') →
  ∃ r0, load_ema_weights st = (r0, st').
Proof.
  intros Hpure. unfold validation_step, mbind, M_bind, bind.
  destruct (load_ema_weights st) as [[[]|e] st1]; [|intros [= <- <-]; by eexists].
  unfold get_self, with_heap, lift.
  pose proof (Hpure (model (self st1)) (mem st1)) as Hf.
  destruct (forward E (model (self st1)) batch (mem st1)) as [[outputs|e] h2].
  - simpl in Hf. subst h2.
    destruct (loss E outputs _) as [[lv lb]|e].
    + intros [= <- <-]. exists (Ok tt). by destruct st1.
    + intros [= <- <-]. exists (Ok tt). by destruct st1.
  - simpl in Hf. subst h2. intros [= <- <-]. exists (Ok tt). by destruct st1.
Qed.

(** X2: from the Live state the swap-in writes to the model's tensors and to
    new cells only, whether it returns or raises: every other tensor that
    existed, the EMA shadows among them, keeps its contents; of the wrapper
    only the cache changes. *)
Theorem swap_in_writes_only_model_tensors (st : state) r st1 :
  cached_weights (self st) = None →
  allocated (af_state_dict (model (self st))) (mem st) →
  load_ema_weights st = (r, st1) →
  (∃ cache, self st1 = set_cached_weights (self st) (Some cache)) ∧
  length (mem st1) = length (mem st) + length (af_state_dict (model (self st))) ∧
  ∀ l, l < length (mem st) → l ∉ refs (af_state_dict (model (self st))) →
       mem st1 !! l = mem st !! l.
Proof.
  intros Hlive Halloc Hhead.
  destruct (load_ema_weights_live_inv st r st1 Hlive Hhead) as (c & h1 & Hclone & Hself & Hload).
  destruct (tensor_tree_map_clone _ _ _ _ Hclone Halloc) as (_ & Hlen1 & Hold & _).
  destruct (load_state_dict_frame _ _ _ _ _ Hload) as (Hlen & Hframe & _).
  split; [by exists c|]. split; [lia|].
  intros l Hl Hnin.
  rewrite (list_lookup_lookup_total_lt (mem st1) l) by lia.
  rewrite (list_lookup_lookup_total_lt (mem st) l) by lia.
  f_equal. rewrite Hframe by done. by apply Hold.
Qed.

Lemma swap_in_writes_only_model_tensors_witness :
  ∃ r st1, load_ema_weights demo_live = (r, st1) ∧
           mem st1 !! 2 = mem demo_live !! 2 ∧
           mem st1 !! 3 = mem demo_live !! 3.
Proof.
  exists (Ok tt), demo_swapped. split; [reflexivity|].
  assert (Ha : allocated (af_state_dict (model (self demo_live))) (mem demo_live))
    by (unfold allocated; apply (bool_decide_unpack _); vm_compute; exact I).
  destruct (swap_in_writes_only_model_tensors demo_live (Ok tt) demo_swapped
              eq_refl Ha eq_refl) as (_ & _ & H).
  split; apply H; try (simpl; lia);
    apply (bool_decide_unpack _); vm_compute; exact I.
Defined.

(** X3: the whole of [validation_step] on the first batch of an epoch,
    whether it returns or raises, followed by [validation_epoch_end]: the
    swap-out returns, the wrapper is as before and every tensor that existed
    has its contents back, provided the forward pass writes to no tensor. *)
Theorem validation_step_then_epoch_end_restores E (batch : Batch) (batch_idx : nat)
    (st : state) :
  cached_weights (self st) = None →
  NoDup (keys (af_state_dict (model (self st)))) →
  allocated (af_state_dict (model (self st))) (mem st) →
  (∀ m h, snd (forward E m batch h) = h) →
  ∃ r st1 st2,
    validation_step E batch batch_idx st = (r, st1) ∧
    validation_epoch_end st1 = (Ok tt, st2) ∧
    self st2 = self st ∧
    ∀ l, l < length (mem st) → mem st2 !! l = mem st !! l.
Proof.
  intros Hlive Hnd Halloc Hpure.
  destruct (validation_step E batch batch_idx st) as [r st1] eqn:Hstep.
  destruct (validation_step_state E batch batch_idx st r st1 Hpure Hstep) as [r0 Hhead].
  destruct (epoch_end_after_head st r0 st1 Hlive Hnd Halloc Hhead) as (st2 & Hend & Hself & Hres).
  by exists r, st1, st2.
Qed.

Lemma validation_step_then_epoch_end_restores_witness :
  ∃ st1 st2,
    validation_step demo_collaborators (demo_batch 2) 0 demo_live
    = (Raise (AssertionError "Structure metrics only supported for batchsize of 1."), st1) ∧
    validation_epoch_end st1 = (Ok tt, st2) ∧
    self st2 = self demo_live ∧
    ∀ l, l < length (mem demo_live) → mem st2 !! l = mem demo_live !! l.
Proof.
  assert (Hnd : NoDup (keys (af_state_dict (model (self demo_live)))))
    by (apply (bool_decide_unpack _); vm_compute; exact I).
  assert (Ha : allocated (af_state_dict (model (self demo_live))) (mem demo_live))
    by (unfold allocated; apply (bool_decide_unpack _); vm_compute; exact I).
  destruct (validation_step_then_epoch_end_restores demo_collaborators (demo_batch 2) 0
              demo_live eq_refl Hnd Ha) as (r & st1 & st2 & Hstep & Hend & Hself & Hres);
    [done|].
  exists st1, st2. split; [|by repeat split].
  rewrite Hstep. f_equal. vm_compute in Hstep. by injection Hstep as <- _.
Defined.

Lemma lookup_of_lookup_total (h h' : heap) l :
  length h' = length h → h' !!! l = h !!! l → h' !! l = h !! l.
Proof.
  intros Hlen Hval. destruct (decide (l < length h)).
  - rewrite (list_lookup_lookup_total_lt h' l) by lia.
    rewrite (list_lookup_lookup_total_lt h l) by lia. by f_equal.
  - rewrite !(lookup_ge_None_2) by lia. done.
Qed.

(** In the Swapped state the steps of the loop change nothing. *)
Lemma validation_steps_swapped E (batches : list Batch) : ∀ batch_idx st r st' cache,
  cached_weights (self st) = Some cache →
  (∀ batch m h, snd (forward E m batch h) = h) →
  validation_steps E batches batch_idx st = (r, st') →
  st' = st.
Proof.
  induction batches as [|batch rest IH]; intros i st r st' c Hsw Hpure; simpl.
  - by intros [= _ <-].
  - unfold mbind, M_bind, bind.
    destruct (validation_step E batch i st) as [res sa] eqn:Hstep.
    destruct (validation_step_state E batch i st res sa (Hpure batch) Hstep) as [r0 Hhead].
    rewrite (load_ema_weights_swapped st c Hsw) in Hhead. injection Hhead as _ <-.
    destruct res as [[]|e].
    + by apply IH with (cache := c).
    + by intros [= _ <-].
Qed.

(** X4: a validation epoch of one batch or more, started Live, in which every
    step returns: the epoch returns, the wrapper is as before, Live again,
    and every tensor that existed has the contents it had, provided the
    forward pass writes to no tensor. *)
Theorem validation_epoch_restores E (batches : list Batch) (st st1 : state) :
  cached_weights (self st) = None →
  NoDup (keys (af_state_dict (model (self st)))) →
  allocated (af_state_dict (model (self st))) (mem st) →
  (∀ batch m h, snd (forward E m batch h) = h) →
  batches ≠ [] →
  validation_steps E batches 0 st = (Ok tt, st1) →
  ∃ st2, validation_epoch E batches st = (Ok tt, st2) ∧
         self st2 = self st ∧
         ∀ l, l < length (mem st) → mem st2 !! l = mem st !! l.
Proof.
  intros Hlive Hnd Halloc Hpure Hne Hsteps.
  destruct batches as [|batch rest]; [done|].
  unfold validation_epoch. rewrite (bind_ok _ _ _ _ _ Hsteps).
  simpl in Hsteps. apply bind_inv_ok in Hsteps as ([] & sa & Hstep & Hrest).
  destruct (validation_step_state E batch 0 st _ sa (Hpure batch) Hstep) as [r0 Hhead].
  destruct (load_ema_weights_live_inv st r0 sa Hlive Hhead) as (c & _ & _ & Hself & _).
  assert (Hsw : cached_weights (self sa) = Some c) by (by rewrite Hself).
  apply (validation_steps_swapped E rest 1 sa _ st1 c Hsw Hpure) in Hrest. subst st1.
  by apply (epoch_end_after_head st r0 sa).
Qed.

Lemma validation_epoch_restores_witness :
  ∃ st2, validation_epoch demo_collaborators [demo_batch 1; demo_batch 1; demo_batch 1]
           demo_live = (Ok tt, st2) ∧
         self st2 = self demo_live ∧
         ∀ l, l < length (mem demo_live) → mem st2 !! l = mem demo_live !! l.
Proof.
  assert (Hnd : NoDup (keys (af_state_dict (model (self demo_live)))))
    by (apply (bool_decide_unpack _); vm_compute; exact I).
  assert (Ha : allocated (af_state_dict (model (self demo_live))) (mem demo_live))
    by (unfold allocated; apply (bool_decide_unpack _); vm_compute; exact I).
  apply (validation_epoch_restores demo_collaborators
           [demo_batch 1; demo_batch 1; demo_batch 1] demo_live demo_swapped
           eq_refl Hnd Ha); [done | done | reflexivity].
Defined.



(** X6: [validation_epoch_end] writes to the model's tensors only and never
    changes the size of the heap; when it returns there was a cache and the
    wrapper is the same with the cache cleared; when it raises the wrapper,
    cache included, is untouched. *)
Theorem validation_epoch_end_outcome (st : state) r st' :
  validation_epoch_end st = (r, st') →
  length (mem st') = length (mem st) ∧
  (∀ l, l ∉ refs (af_state_dict (model (self st))) → mem st' !! l = mem st !! l) ∧
  match r with
  | Ok _ => (∃ cache, cached_weights (self st) = Some cache) ∧
            self st' = set_cached_weights (self st) None
  | Raise _ => self st' = self st
  end.
Proof.
  rewrite validation_epoch_end_unfold.
  destruct (load_state_dict (af_state_dict (model (self st)))
              (cached_weights (self st)) (mem st)) as [r1 h1] eqn:Hload.
  destruct (load_state_dict_frame _ _ _ _ _ Hload) as (Hlen & Hframe & _).
  assert (Hmem : ∀ l, l ∉ refs (af_state_dict (model (self st))) → h1 !! l = mem st !! l).
  { intros l Hl. apply lookup_of_lookup_total; auto. }
  destruct r1 as [[]|e]; intros [= <- <-]; cbn [mem self].
  - split; [done|]. split; [done|]. split; [|done].
    destruct (cached_weights (self st)) as [c|]; [by exists c|].
    discriminate Hload.
  - by repeat split.
Qed.

Lemma validation_epoch_end_outcome_witness :
  ∃ st', validation_epoch_end demo_swapped = (Ok tt, st') ∧
         self st' = set_cached_weights (self demo_swapped) None ∧
         mem st' !! 2 = mem demo_swapped !! 2.
Proof.
  destruct (validation_epoch_end demo_swapped) as [r st'] eqn:Hend.
  pose proof (validation_epoch_end_outcome demo_swapped r st' Hend) as (_ & Hframe & Hr).
  assert (Hok : r = Ok tt) by (vm_compute in Hend; by injection Hend as <- _).
  subst r. exists st'. split; [done|]. destruct Hr as [_ Hself]. split; [done|].
  apply Hframe. apply (bool_decide_unpack _). vm_compute. exact I.
Defined.

(** ** The checkpoint hooks *)

(** X9: [on_load_checkpoint] on a checkpoint it cannot read: without an
    ['ema'] entry it raises [KeyError('ema')]; with templates disabled and an
    EMA fragment without ['params'] it raises [KeyError('params')]; any
    failure to read ['ema'] is passed on.  In each case the wrapper and the
    heap are untouched: the tracker has not been called. *)
Theorem on_load_checkpoint_missing_keys E (st : state) (checkpoint : value) :
  (∀ e, getitem checkpoint "ema" = Raise e →
        on_load_checkpoint E checkpoint st = (Raise e, st)) ∧
  (∀ entries, checkpoint = VDict entries → entries !! "ema" = None →
        on_load_checkpoint E checkpoint st = (Raise (KeyError "ema"), st)) ∧
  (∀ fragment, getitem checkpoint "ema" = Ok (VDict fragment) →
        template_config_enabled (model (self st)) = false →
        fragment !! "params" = None →
        on_load_checkpoint E checkpoint st = (Raise (KeyError "params"), st)).
Proof.
  assert (Hraise : ∀ e, getitem checkpoint "ema" = Raise e →
            on_load_checkpoint E checkpoint st = (Raise e, st)).
  { intros e He. unfold on_load_checkpoint, mbind, M_bind, bind, get_self, lift.
    by rewrite He. }
  split; [exact Hraise|]. split.
  - intros entries -> Hnone. apply Hraise. simpl. by rewrite Hnone.
  - intros fragment Hema Hdis Hnone.
    unfold on_load_checkpoint, mbind, M_bind, bind, get_self, lift.
    rewrite Hema, Hdis. simpl. by rewrite Hnone.
Qed.

Lemma on_load_checkpoint_missing_keys_witness :
  on_load_checkpoint demo_collaborators (VDict (<["global_step" := VInt 7%Z]> ∅))
    demo_live = (Raise (KeyError "ema"), demo_live) ∧
  on_load_checkpoint demo_collaborators
    (VDict (<["ema" := VDict (<["decay" := VFloat (999 # 1000)]> ∅)]> ∅))
    demo_live = (Raise (KeyError "params"), demo_live).
Proof.
  split.
  - destruct (on_load_checkpoint_missing_keys demo_collaborators demo_live
                (VDict (<["global_step" := VInt 7%Z]> ∅))) as (_ & Hema & _).
    by apply (Hema (<["global_step" := VInt 7%Z]> ∅)).
  - destruct (on_load_checkpoint_missing_keys demo_collaborators demo_live
                (VDict (<["ema" := VDict (<["decay" := VFloat (999 # 1000)]> ∅)]> ∅)))
      as (_ & _ & Hparams).
    by apply (Hparams (<["decay" := VFloat (999 # 1000)]> ∅)).
Defined.

Lemma getitem_setitem_ne (d d' : value) k k' v :
  setitem d k v = Ok d' → k' ≠ k → getitem d' k' = getitem d k'.
Proof.
  destruct d as [| | |m]; simpl; try discriminate.
  intros [= <-] Hne. simpl. by rewrite lookup_insert_ne.
Qed.

Lemma getitem_setitem_eq (d d' : value) k v :
  setitem d k v = Ok d' → getitem d' k = Ok v.
Proof.
  destruct d as [| | |m]; simpl; try discriminate.
  intros [= <-]. simpl. by rewrite lookup_insert_eq.
Qed.

(** X10: when [on_load_checkpoint] returns, the wrapper has its model, its
    configuration, its swap cache and its resume step as before; in the
    checkpoint it returns every entry but ['ema'] is as it was, and so is
    every field of the EMA fragment but ['params']. *)
Theorem on_load_checkpoint_frame E (st st' : state) (checkpoint checkpoint' : value) :
  on_load_checkpoint E checkpoint st = (Ok checkpoint', st') →
  model (self st') = model (self st) ∧
  config (self st') = config (self st) ∧
  cached_weights (self st') = cached_weights (self st) ∧
  last_lr_step (self st') = last_lr_step (self st) ∧
  (∀ k, k ≠ "ema" → getitem checkpoint' k = getitem checkpoint k) ∧
  (∀ k, k ≠ "params" →
     (getitem checkpoint' "ema" ≫= λ f, getitem f k)
     = (getitem checkpoint "ema" ≫= λ f, getitem f k)).
Proof.
  unfold on_load_checkpoint. intros Hr.
  apply bind_inv_ok in Hr as (w & s1 & Hw & Hr).
  unfold get_self in Hw. injection Hw as <- <-.
  apply bind_inv_ok in Hr as (frag & s2 & Hfrag & Hr).
  apply lift_inv_ok in Hfrag as [Hfrag ->].
  apply bind_inv_ok in Hr as (frag' & s3 & Hfrag' & Hr).
  apply bind_inv_ok in Hr as (loaded & s4 & Hload & Hr).
  apply bind_inv_ok in Hr as ([] & s5 & Hput & Hr).
  apply lift_inv_ok in Hr as [Hset ->].
  unfold put_self in Hput. injection Hput as <-.
  assert (Hs3 : s3 = st ∧
    ∀ k, k ≠ "params" → getitem frag' k = getitem frag k).
  { destruct (template_config_enabled (model (self st))); simpl in Hfrag'.
    - apply mret_inv_ok in Hfrag' as [-> ->]. done.
    - apply bind_inv_ok in Hfrag' as (entries & s6 & Hent & Hfrag').
      apply lift_inv_ok in Hent as [_ ->].
      apply lift_inv_ok in Hfrag' as [Hfrag' ->].
      split; [done|]. intros k Hk. by eapply getitem_setitem_ne. }
  destruct Hs3 as [-> Hfields].
  unfold with_heap in Hload.
  destruct (ema_load_state_dict E (ema (self st)) frag' (mem st)) as [r h].
  injection Hload as -> <-. cbn [self].
  repeat (split; [done|]). split.
  - intros k Hk. by eapply getitem_setitem_ne.
  - intros k Hk. rewrite (getitem_setitem_eq _ _ _ _ Hset), Hfrag. simpl.
    by apply Hfields.
Qed.

Lemma on_load_checkpoint_frame_witness :
  ∃ checkpoint' st',
    on_load_checkpoint demo_collaborators demo_checkpoint demo_live
    = (Ok checkpoint', st') ∧
    cached_weights (self st') = None ∧
    getitem checkpoint' "global_step" = Ok (VInt 7%Z) ∧
    (getitem checkpoint' "ema" ≫= λ f, getitem f "decay") = Ok (VFloat (999 # 1000)).
Proof.
  destruct (on_load_checkpoint demo_collaborators demo_checkpoint demo_live)
    as [[checkpoint'|e] st'] eqn:Hr; [|vm_compute in Hr; discriminate Hr].
  destruct (on_load_checkpoint_frame demo_collaborators demo_live st' demo_checkpoint
              checkpoint' Hr) as (_ & _ & Hcache & _ & Hkeys & Hfields).
  exists checkpoint', st'. split; [done|]. split; [exact Hcache|]. split.
  - rewrite Hkeys by done. by vm_compute.
  - rewrite Hfields by done. by vm_compute.
Defined.

(** X11: the template filter only drops entries; applying it twice is
    applying it once; and a dict in which no key has an occurrence of
    ["template"] comes out as it went in. *)
Theorem without_template_idempotent (entries : gmap string value) :
  without_template entries ⊆ entries ∧
  without_template (without_template entries) = without_template entries ∧
  ((∀ k, is_Some (entries !! k) → contains "template" k = false) →
   without_template entries = entries).
Proof.
  split; [apply map_filter_subseteq|]. split.
  - apply map_eq. intros k. apply option_eq. intros v.
    rewrite !without_template_lookup. tauto.
  - intros Hnone. apply map_eq. intros k. apply option_eq. intros v.
    rewrite without_template_lookup, <- contains_spec. split; [tauto|].
    intros Hk. split; [done|]. rewrite Hnone; [done | by exists v].
Qed.

Lemma without_template_idempotent_witness :
  without_template (<["evoformer.w" := VInt 1%Z]> (<["Template.w" := VInt 2%Z]> ∅))
  = <["evoformer.w" := VInt 1%Z]> (<["Template.w" := VInt 2%Z]> ∅).
Proof.
  apply without_template_idempotent.
  intros k [v Hk]. apply lookup_insert_Some in Hk as [[<- _]|[_ Hk]]; [done|].
  apply lookup_insert_Some in Hk as [[<- _]|[_ Hk]]; [done|].
  by rewrite lookup_empty in Hk.
Defined.

(** X12: [on_save_checkpoint] puts the tracker's state dict under ['ema'],
    changes no other entry of the checkpoint and nothing of the wrapper or
    the heap; handing the checkpoint it returns to [on_load_checkpoint] with
    templates enabled gives the tracker that very state dict back. *)
Theorem save_then_load_checkpoint E
    (ema_state_dict : ExponentialMovingAverage → heap → value)
    (st : state) (entries : gmap string value) :
  ∃ saved,
    on_save_checkpoint ema_state_dict (VDict entries) st = (Ok saved, st) ∧
    getitem saved "ema" = Ok (ema_state_dict (ema (self st)) (mem st)) ∧
    (∀ k, k ≠ "ema" → getitem saved k = getitem (VDict entries) k) ∧
    (template_config_enabled (model (self st)) = true →
     loads_fragment E saved (ema_state_dict (ema (self st)) (mem st)) st).
Proof.
  eexists. split.
  { unfold on_save_checkpoint, mbind, M_bind, bind, get_self, with_heap, lift.
    simpl. by destruct st. }
  split; [simpl; by rewrite lookup_insert_eq|]. split.
  { intros k Hk. simpl. by rewrite lookup_insert_ne. }
  intros Hen. unfold loads_fragment, on_load_checkpoint.
  unfold mbind, M_bind, bind, get_self, lift, with_heap, put_self.
  simpl. rewrite lookup_insert_eq, Hen. simpl.
  by destruct (ema_load_state_dict E (ema (self st)) _ (mem st)) as [[loaded|e] h].
Qed.

Lemma save_then_load_checkpoint_witness :
  ∃ saved,
    on_save_checkpoint (λ _ _, VDict demo_fragment)
      (VDict (<["global_step" := VInt 7%Z]> ∅)) demo_live = (Ok saved, demo_live) ∧
    getitem saved "ema" = Ok (VDict demo_fragment) ∧
    getitem saved "global_step" = Ok (VInt 7%Z).
Proof.
  destruct (save_then_load_checkpoint demo_collaborators (λ _ _, VDict demo_fragment)
              demo_live (<["global_step" := VInt 7%Z]> ∅))
    as (saved & Hsave & Hema & Hkeys & _).
  exists saved. split; [exact Hsave|]. split; [exact Hema|].
  rewrite Hkeys by done. by vm_compute.
Defined.

(** ** The precision test *)

(** X15: [str(args.precision) == "16"], the test behind both the
    configuration's [low_prec] and the DeepSpeed check, holds for the
    integer 16 and for the string ["16"], and for no other value. *)
Theorem precision_16_detection (p : precision_arg) :
  String.eqb (str p) "16" = true ↔ p = PrecInt 16 ∨ p = PrecStr "16".
Proof.
  rewrite String.eqb_eq. destruct p as [n|s]; simpl.
  - split.
    + intros Hn. left. f_equal.
      apply (inj (pretty (A := Z))). by rewrite Hn.
    + by intros [[= ->]|[=]].
  - split.
    + intros ->. by right.
    + by intros [[=]|[= ->]].
Qed.

Lemma precision_16_detection_witness :
  String.eqb (str (PrecStr "bf16")) "16" = false ∧
  String.eqb (str (PrecInt 16)) "16" = true.
Proof.
  split.
  - apply not_true_is_false. intros H.
    apply precision_16_detection in H as [[=]|[=]].
  - apply precision_16_detection. by left.
Defined.

(** ** The script, from the checks to the trainer *)

Lemma new_OpenFoldWrapper_config E cfg h w h' :
  new_OpenFoldWrapper E cfg h = (Ok w, h') → config w = cfg.
Proof.
  unfold new_OpenFoldWrapper. intros Hw.
  apply bind_inv_ok in Hw as (m & h1 & _ & Hw).
  apply bind_inv_ok in Hw as (e & h2 & _ & Hw).
  apply mret_inv_ok in Hw as [-> _]. done.
Qed.

(** A returning [load_jax_or_resume] had no JAX path, left the heap alone and
    at most recorded the step of the checkpoint. *)
Lemma load_jax_or_resume_ok E args w h w' h' :
  load_jax_or_resume E args w h = (Ok w', h') →
  h' = h ∧ jax_param_path args = None ∧
  (w' = w ∨ ∃ step, w' = set_last_lr_step w step).
Proof.
  intros Hr. destruct (jax_param_path args) as [jax_path|] eqn:Hjax.
  - destruct (load_jax_or_resume_jax E args w h jax_path Hjax) as (e & h'' & Hraise & _).
    rewrite Hraise in Hr. discriminate Hr.
  - unfold load_jax_or_resume in Hr. rewrite Hjax in Hr.
    destruct (truthy (resume_from_ckpt args) && negb (resume_model_weights_only args)).
    + apply bind_inv_ok in Hr as (step & h1 & Hstep & Hr).
      apply lift_inv_ok in Hstep as [_ ->].
      apply mret_inv_ok in Hr as [-> ->]. split; [done|]. split; [done|].
      right. by exists step.
    + apply mret_inv_ok in Hr as [-> ->]. auto.
Qed.

Lemma main_inv_checks E args h call h' :
  main E args h = (Ok call, h') →
  ∃ w0 h0 h1,
    new_OpenFoldWrapper E (main_config E args) h = (Ok w0, h0) ∧
    load_jax_or_resume E args w0 h0 = (Ok (fit_module call), h1) ∧
    select_strategy args = Ok (fit_strategy call).
Proof.
  unfold main. cbv zeta. intros Hm.
  apply bind_inv_ok in Hm as ([] & s1 & Hmk & Hm).
  apply lift_inv_ok in Hmk as [_ ->].
  apply bind_inv_ok in Hm as (w0 & h0 & Hnew & Hm).
  apply bind_inv_ok in Hm as (w1 & h1 & Hres & Hm).
  apply bind_inv_ok in Hm as ([] & h2 & Hwo & Hm).
  apply bind_inv_ok in Hm as ([] & h3 & _ & Hm).
  apply bind_inv_ok in Hm as ([] & h4 & _ & Hm).
  apply bind_inv_ok in Hm as (strat & h5 & Hstrat & Hm).
  apply lift_inv_ok in Hstrat as [Hstrat ->].
  apply mret_inv_ok in Hm as [-> _]. simpl.
  by exists w0, h0, h1.
Qed.

Lemma run_script_inv E args h call h' :
  run_script E args h = (Ok call, h') →
  bool_decide (seed args = None) &&
    (some_greater_than_one (gpus args) || some_greater_than_one (num_nodes args))
    = false ∧
  String.eqb (str (precision args)) "16" &&
    bool_decide (deepspeed_config_path args ≠ None) = false ∧
  main E args h = (Ok call, h').
Proof.
  unfold run_script, mbind, M_bind, bind, raise.
  destruct (bool_decide (seed args = None) && _); [discriminate|].
  simpl.
  destruct (String.eqb (str (precision args)) "16" && _); [discriminate|].
  simpl. done.
Qed.

(** X16: a run that reaches the trainer has passed both checks, and its
    strategy shows it: [DDPPlugin] comes with a seed and without
    unused-parameter detection, and a DeepSpeed plugin comes with a precision
    other than 16.  In a run without a seed neither [gpus] nor [num_nodes] is
    above 1, so that it never gets [DDPPlugin]; this is the script's own
    numeric test and no count of devices: [gpus = -1], all devices for the
    trainer, passes it. *)
Theorem trainer_reached_after_checks E (args : Args) (h : heap)
    (call : FitCall) (h' : heap) :
  run_script E args h = (Ok call, h') →
  main E args h = (Ok call, h') ∧
  (∀ b, fit_strategy call = Some (DDPPlugin b) → b = false ∧ seed args ≠ None) ∧
  (∀ path, fit_strategy call = Some (DeepSpeedPlugin path) →
           deepspeed_config_path args = Some path ∧ str (precision args) ≠ "16") ∧
  (seed args = None →
   some_greater_than_one (gpus args) = false ∧
   some_greater_than_one (num_nodes args) = false ∧
   ∀ b, fit_strategy call ≠ Some (DDPPlugin b)).
Proof.
  intros Hrun. apply run_script_inv in Hrun as (Hseed & Hprec & Hmain).
  split; [exact Hmain|].
  apply main_inv_checks in Hmain as (_ & _ & _ & _ & _ & Hstrat).
  assert (Hsingle : seed args = None →
            some_greater_than_one (gpus args) = false ∧
            some_greater_than_one (num_nodes args) = false).
  { intros Hnone. rewrite (bool_decide_eq_true_2 _ Hnone) in Hseed.
    simpl in Hseed. by apply orb_false_iff in Hseed. }
  assert (Hddp : ∀ b, fit_strategy call = Some (DDPPlugin b) →
                      b = false ∧ seed args ≠ None).
  { intros b Hb. rewrite Hb in Hstrat. unfold select_strategy in Hstrat.
    destruct (deepspeed_config_path args); [discriminate|].
    destruct (some_greater_than_one (gpus args)) eqn:Hg; simpl in Hstrat.
    + injection Hstrat as <-. split; [done|].
      intros Hnone. destruct (Hsingle Hnone) as [? _]. congruence.
    + destruct (num_nodes args) as [n|] eqn:Hnodes; simpl in Hstrat; [|discriminate].
      destruct (bool_decide (1 < n)%Z) eqn:Hn; [|discriminate].
      injection Hstrat as <-. split; [done|].
      intros Hnone. destruct (Hsingle Hnone) as [_ Hn']. simpl in Hn'. congruence. }
  split; [exact Hddp|]. split.
  - intros path Hp. rewrite Hp in Hstrat. unfold select_strategy in Hstrat.
    destruct (deepspeed_config_path args) as [path'|] eqn:Hd.
    + injection Hstrat as ->. split; [done|].
      intros H16. rewrite H16 in Hprec. simpl in Hprec. discriminate Hprec.
    + destruct (some_greater_than_one (gpus args)); simpl in Hstrat; [discriminate|].
      destruct (num_nodes args) as [n|]; simpl in Hstrat; [|discriminate].
      by destruct (bool_decide (1 < n)%Z).
  - intros Hnone. destruct (Hsingle Hnone) as [Hg Hn].
    split; [exact Hg|]. split; [exact Hn|].
    intros b Hb. by destruct (Hddp b Hb).
Qed.

Lemma trainer_reached_after_checks_witness :
  (∃ call h',
     run_script demo_collaborators (with_devices (Some 7%Z) (Some 4%Z) demo_args) []
     = (Ok call, h') ∧
     fit_strategy call = Some (DDPPlugin false) ∧
     seed (with_devices (Some 7%Z) (Some 4%Z) demo_args) ≠ None) ∧
  (∃ call h',
     run_script demo_collaborators (with_devices None (Some (-1)%Z) demo_args) []
     = (Ok call, h') ∧
     ∀ b, fit_strategy call ≠ Some (DDPPlugin b)).
Proof.
  split.
  - destruct (run_script demo_collaborators
                (with_devices (Some 7%Z) (Some 4%Z) demo_args) [])
      as [[call|e] h'] eqn:Hrun; [|vm_compute in Hrun; discriminate Hrun].
    destruct (trainer_reached_after_checks demo_collaborators _ _ _ _ Hrun)
      as (_ & Hddp & _ & _).
    assert (Hs : fit_strategy call = Some (DDPPlugin false))
      by (vm_compute in Hrun; by injection Hrun as <- _).
    exists call, h'. split; [done|]. split; [exact Hs|].
    by destruct (Hddp false Hs).
  - destruct (run_script demo_collaborators
                (with_devices None (Some (-1)%Z) demo_args) [])
      as [[call|e] h'] eqn:Hrun; [|vm_compute in Hrun; discriminate Hrun].
    destruct (trainer_reached_after_checks demo_collaborators _ _ _ _ Hrun)
      as (_ & _ & _ & Hnone).
    exists call, h'. split; [done|]. by apply Hnone.
Defined.

(** X17: a distributed run without a seed is stopped by the first check,
    before the precision check and before [main], with the heap untouched:
    the error is the seed error even when precision 16 and DeepSpeed are
    combined. *)
Theorem distributed_without_seed_is_fatal E (args : Args) (h : heap) :
  seed args = None →
  some_greater_than_one (gpus args) || some_greater_than_one (num_nodes args) = true →
  run_script E args h
  = (Raise (ValueError "For distributed training, --seed must be specified"), h).
Proof.
  intros Hseed Hdist. unfold run_script, mbind, M_bind, bind, raise.
  by rewrite (bool_decide_eq_true_2 _ Hseed), Hdist.
Qed.

Lemma distributed_without_seed_is_fatal_witness :
  run_script demo_collaborators
    (with_precision (PrecInt 16) (Some "deepspeed.json")
       (with_devices None (Some 4%Z) demo_args)) []
  = (Raise (ValueError "For distributed training, --seed must be specified"), []).
Proof.
  apply (distributed_without_seed_is_fatal demo_collaborators
           (with_precision (PrecInt 16) (Some "deepspeed.json")
              (with_devices None (Some 4%Z) demo_args)) []);
    reflexivity.
Defined.

(** X18: the wrapper [main] hands to the trainer is the one its constructor
    built from the configuration of the arguments, Live, with the same
    network and the same EMA tracker: apart from the recorded step [main]
    changes no field of it. *)
Theorem main_hands_over_constructed_wrapper E (args : Args) (h : heap)
    (call : FitCall) (h' : heap) :
  main E args h = (Ok call, h') →
  ∃ w0 h0,
    new_OpenFoldWrapper E (main_config E args) h = (Ok w0, h0) ∧
    config (fit_module call) = main_config E args ∧
    model (fit_module call) = model w0 ∧
    ema (fit_module call) = ema w0 ∧
    cached_weights (fit_module call) = None.
Proof.
  intros Hm. apply main_inv_checks in Hm as (w0 & h0 & h1 & Hnew & Hres & _).
  exists w0, h0. split; [exact Hnew|].
  pose proof (new_OpenFoldWrapper_config _ _ _ _ _ Hnew) as Hcfg.
  apply new_OpenFoldWrapper_fresh in Hnew as [_ Hcache].
  apply load_jax_or_resume_ok in Hres as (_ & _ & [->|[step ->]]); by simpl.
Qed.

Lemma main_hands_over_constructed_wrapper_witness :
  ∃ call h',
    main demo_collaborators (with_resume "last.ckpt" false demo_args) [] = (Ok call, h') ∧
    config (fit_module call)
    = main_config demo_collaborators (with_resume "last.ckpt" false demo_args) ∧
    cached_weights (fit_module call) = None.
Proof.
  destruct (main demo_collaborators (with_resume "last.ckpt" false demo_args) [])
    as [[call|e] h'] eqn:Hm; [|vm_compute in Hm; discriminate Hm].
  destruct (main_hands_over_constructed_wrapper demo_collaborators _ _ _ _ Hm)
    as (w0 & h0 & _ & Hcfg & _ & _ & Hcache).
  by exists call, h'.
Defined.

(** X19: an empty string as [--resume_from_ckpt] counts as no checkpoint for
    the script, which records no step, yet goes to the trainer as its
    [ckpt_path] unless the weights-only flag is set. *)
Theorem empty_checkpoint_path_is_no_resume E (args : Args) (h : heap)
    (call : FitCall) (h' : heap) :
  resume_from_ckpt args = Some "" →
  main E args h = (Ok call, h') →
  last_lr_step (fit_module call) = (-1)%Z ∧
  fit_ckpt_path call = if resume_model_weights_only args then None else Some "".
Proof.
  intros Hckpt Hm.
  pose proof (main_no_jax _ _ _ _ _ Hm) as Hjax.
  apply main_inv in Hm as (w0 & h0 & h1 & h2 & Hnew & Hres & _ & Hpath).
  rewrite Hckpt in Hpath. split; [|exact Hpath].
  unfold load_jax_or_resume in Hres. rewrite Hjax, Hckpt in Hres. simpl in Hres.
  apply mret_inv_ok in Hres as [-> _].
  by apply new_OpenFoldWrapper_fresh in Hnew as [? _].
Qed.

Lemma empty_checkpoint_path_is_no_resume_witness :
  ∃ call h',
    main demo_collaborators (with_resume "" false demo_args) [] = (Ok call, h') ∧
    last_lr_step (fit_module call) = (-1)%Z ∧
    fit_ckpt_path call = Some "".
Proof.
  destruct (main demo_collaborators (with_resume "" false demo_args) [])
    as [[call|e] h'] eqn:Hm; [|vm_compute in Hm; discriminate Hm].
  destruct (empty_checkpoint_path_is_no_resume demo_collaborators
              (with_resume "" false demo_args) [] call h' eq_refl Hm) as [Hstep Hpath].
  by exists call, h'.
Defined.

Lemma main_raises_in_resume E args h w h0 e h1 :
  makedirs E (pdb_dir (openmm (main_config E args))) = Ok tt →
  new_OpenFoldWrapper E (main_config E args) h = (Ok w, h0) →
  load_jax_or_resume E args w h0 = (Raise e, h1) →
  main E args h = (Raise e, h1).
Proof.
  intros Hmk Hnew Hres. unfold main. cbv zeta.
  erewrite bind_ok; [|unfold lift; by rewrite Hmk].
  erewrite bind_ok; [|exact Hnew].
  by eapply bind_raise.
Qed.

Lemma main_raises_in_weights E args h w h0 w' h1 e h2 :
  makedirs E (pdb_dir (openmm (main_config E args))) = Ok tt →
  new_OpenFoldWrapper E (main_config E args) h = (Ok w, h0) →
  load_jax_or_resume E args w h0 = (Ok w', h1) →
  load_weights_only E args w' h1 = (Raise e, h2) →
  main E args h = (Raise e, h2).
Proof.
  intros Hmk Hnew Hres Hwo. unfold main. cbv zeta.
  erewrite bind_ok; [|unfold lift; by rewrite Hmk].
  erewrite bind_ok; [|exact Hnew].
  erewrite bind_ok; [|exact Hres].
  by eapply bind_raise.
Qed.

(** X20: a full resume from a single file whose dict has no ['global_step']
    entry stops [main] with [KeyError('global_step')], right after the
    wrapper is built: nothing is loaded and the trainer is not reached. *)
Theorem resume_without_global_step_is_fatal E (args : Args) (h : heap)
    (ckpt : string) (entries : gmap string value) (w : OpenFoldWrapper) (h0 : heap) :
  jax_param_path args = None →
  resume_from_ckpt args = Some ckpt →
  ckpt ≠ "" →
  resume_model_weights_only args = false →
  makedirs E (pdb_dir (openmm (main_config E args))) = Ok tt →
  new_OpenFoldWrapper E (main_config E args) h = (Ok w, h0) →
  isdir E ckpt = false →
  torch_load E ckpt = Ok (VDict entries) →
  entries !! "global_step" = None →
  main E args h = (Raise (KeyError "global_step"), h0).
Proof.
  intros Hjax Hckpt Hne Hfull Hmk Hnew Hfile Hload Hnone.
  apply (main_raises_in_resume E args h w h0); [done|done|].
  unfold load_jax_or_resume. rewrite Hjax, Hckpt, Hfull.
  assert (Htruthy : truthy (Some ckpt) = true).
  { simpl. apply negb_true_iff, String.eqb_neq. done. }
  rewrite Htruthy. simpl. eapply bind_raise.
  unfold lift, last_global_step. rewrite Hfile, Hload. simpl. by rewrite Hnone.
Qed.

Lemma resume_without_global_step_is_fatal_witness :
  ∃ h0,
    main (with_torch_load (Ok (VDict (<["w" := VTensor (vector [5]%Z)]> ∅)))
            demo_collaborators)
      (with_resume "last.ckpt" false demo_args) []
    = (Raise (KeyError "global_step"), h0).
Proof.
  destruct (new_OpenFoldWrapper
              (with_torch_load (Ok (VDict (<["w" := VTensor (vector [5]%Z)]> ∅)))
                 demo_collaborators)
              (main_config
                 (with_torch_load (Ok (VDict (<["w" := VTensor (vector [5]%Z)]> ∅)))
                    demo_collaborators)
                 (with_resume "last.ckpt" false demo_args)) [])
    as [[w|e] h0] eqn:Hnew; [|vm_compute in Hnew; discriminate Hnew].
  exists h0.
  apply (resume_without_global_step_is_fatal _ _ [] "last.ckpt"
           (<["w" := VTensor (vector [5]%Z)]> ∅) w h0);
    (reflexivity || done).
Defined.

(** X21: a weights-only load of a checkpoint that is not a dict (a bare
    tensor, say) stops [main] with an [AttributeError] on [sd.items()],
    before the wrapper's [load_state_dict] is called. *)
Theorem weights_only_load_of_non_dict_is_fatal E (args : Args) (h : heap)
    (ckpt : string) (sd : value) (w : OpenFoldWrapper) (h0 : heap) :
  jax_param_path args = None →
  resume_from_ckpt args = Some ckpt →
  ckpt ≠ "" →
  resume_model_weights_only args = true →
  makedirs E (pdb_dir (openmm (main_config E args))) = Ok tt →
  new_OpenFoldWrapper E (main_config E args) h = (Ok w, h0) →
  checkpoint_weights E ckpt = Ok sd →
  (∀ entries, sd ≠ VDict entries) →
  main E args h = (Raise (AttributeError "object has no attribute 'items'"), h0).
Proof.
  intros Hjax Hckpt Hne Hwo Hmk Hnew Hsd Hnd.
  apply (main_raises_in_weights E args h w h0 w h0); [done|done| |].
  - unfold load_jax_or_resume. by rewrite Hjax, Hwo, andb_false_r.
  - unfold load_weights_only. rewrite Hckpt, Hwo.
    assert (Htruthy : truthy (Some ckpt) = true).
    { simpl. apply negb_true_iff, String.eqb_neq. done. }
    rewrite Htruthy. simpl.
    erewrite bind_ok; [|unfold lift; by rewrite Hsd].
    eapply bind_raise. unfold lift.
    destruct sd as [| | |entries]; try done. by destruct (Hnd entries).
Qed.

Lemma weights_only_load_of_non_dict_is_fatal_witness :
  ∃ h0,
    main (with_torch_load (Ok (VTensor (vector [5]%Z))) demo_collaborators)
      (with_resume "weights.pt" true demo_args) []
    = (Raise (AttributeError "object has no attribute 'items'"), h0).
Proof.
  destruct (new_OpenFoldWrapper
              (with_torch_load (Ok (VTensor (vector [5]%Z))) demo_collaborators)
              (main_config
                 (with_torch_load (Ok (VTensor (vector [5]%Z))) demo_collaborators)
                 (with_resume "weights.pt" true demo_args)) [])
    as [[w|e] h0] eqn:Hnew; [|vm_compute in Hnew; discriminate Hnew].
  exists h0.
  apply (weights_only_load_of_non_dict_is_fatal _ _ [] "weights.pt"
           (VTensor (vector [5]%Z)) w h0);
    (reflexivity || done).
Defined.

(** ** Strings and keys *)

Lemma contains_char_cons (c a : ascii) (s : string) :
  contains (String c "") (String a s) = false ↔
  a ≠ c ∧ contains (String c "") s = false.
Proof.
  change (contains (String c "") (String a s))
    with (String.prefix (String c "") (String a s) || contains (String c "") s).
  rewrite orb_false_iff. simpl.
  destruct (Ascii.ascii_dec c a) as [->|Hne].
  - destruct s; simpl; split; intros [? ?]; done.
  - split; intros [_ ?]; split; congruence.
Qed.

Lemma split_nonempty (c : ascii) (s : string) : split c s ≠ [].
Proof.
  induction s as [|a s IH]; simpl; [done|].
  destruct (decide (a = c)); [done|]. by destruct (split c s).
Qed.

Lemma split_without_separator (c : ascii) (s : string) :
  contains (String c "") s = false → split c s = [s].
Proof.
  induction s as [|a s IH]; [done|].
  intros [Hne Hs]%contains_char_cons. simpl.
  rewrite decide_False by done. by rewrite (IH Hs).
Qed.

Lemma split_at_first_separator (c : ascii) (pre rest : string) :
  contains (String c "") pre = false →
  split c (pre +:+ String c rest) = pre :: split c rest.
Proof.
  induction pre as [|a pre IH]; simpl.
  - intros _. by rewrite decide_True.
  - intros [Hne Hs]%contains_char_cons.
    rewrite decide_False by done. by rewrite (IH Hs).
Qed.

Lemma join_split (c : ascii) (s : string) : join (String c "") (split c s) = s.
Proof.
  induction s as [|a s IH]; [done|]. simpl.
  destruct (decide (a = c)) as [->|Hne].
  - pose proof (split_nonempty c s) as Hsome.
    destruct (split c s) as [|w ws]; [done|].
    change (join (String c "") ("" :: w :: ws))
      with ("" +:+ String c "" +:+ join (String c "") (w :: ws)).
    by rewrite IH.
  - pose proof (split_nonempty c s) as Hsome.
    destruct (split c s) as [|w ws]; [done|].
    destruct ws as [|w' ws].
    + simpl in *. by rewrite IH.
    + change (join (String c "") (String a w :: w' :: ws))
        with (String a (w +:+ String c "" +:+ join (String c "") (w' :: ws))).
      by rewrite <- IH.
Qed.

(** X22: the version [load_jax_params_into_model] hands to the importer is
    the basename after its first underscore (["params_model_1_ptm"] gives
    ["model_1_ptm"]), and the empty string when the basename has none; the
    heap the function leaves is the one the importer left when called with
    that version. *)
Theorem model_version_is_after_first_underscore :
  (∀ pre rest, contains "_" pre = false →
               model_version (pre +:+ "_" +:+ rest) = rest) ∧
  (∀ basename, contains "_" basename = false → model_version basename = "") ∧
  (∀ E param_path model h basename,
     get_model_basename E param_path = Ok basename →
     snd (load_jax_params_into_model E param_path model h)
     = snd (import_jax_weights_ E model param_path (model_version basename) h)).
Proof.
  split; [|split].
  - intros pre rest Hpre. unfold model_version.
    change (pre +:+ "_" +:+ rest) with (pre +:+ String "_"%char rest).
    rewrite (split_at_first_separator _ _ _ Hpre). simpl drop.
    apply join_split.
  - intros basename Hb. unfold model_version.
    by rewrite (split_without_separator _ _ Hb).
  - intros E param_path model h basename Hb.
    unfold load_jax_params_into_model, mbind, M_bind, bind, lift. rewrite Hb.
    fold (model_version basename).
    destruct (import_jax_weights_ E model param_path (model_version basename) h)
      as [[[]|e] h1]; [|done].
    by rewrite path_is_unbound.
Qed.

Lemma model_version_is_after_first_underscore_witness :
  model_version "params_model_1_ptm" = "model_1_ptm" ∧
  model_version "params" = "".
Proof.
  destruct model_version_is_after_first_underscore as (Hafter & Hnone & _).
  split.
  - apply (Hafter "params" "model_1_ptm"). reflexivity.
  - apply Hnone. reflexivity.
Defined.

(** X23: prefixing the keys loses and merges nothing: the prefixed dict has
    as many entries as the loaded one, it is empty only if that one is, and
    no key of it is without the prefix. *)
Theorem add_model_prefix_keeps_all_entries (entries : gmap string value) :
  size (add_model_prefix entries) = size entries ∧
  (add_model_prefix entries = ∅ ↔ entries = ∅) ∧
  (∀ k, is_Some (add_model_prefix entries !! k) → String.prefix "model." k = true).
Proof.
  unfold add_model_prefix. split; [|split].
  - rewrite <- !length_map_to_list.
    rewrite (map_to_list_kmap (String.append "model.")). apply length_fmap.
  - apply (kmap_empty_iff (String.append "model.")).
  - intros k [v Hk].
    apply (lookup_kmap_Some (String.append "model.")) in Hk as (k0 & -> & _).
    apply prefix_app. by exists k0.
Qed.

Lemma add_model_prefix_keeps_all_entries_witness :
  size (add_model_prefix demo_shadow) = size demo_shadow ∧
  String.prefix "model." ("model." +:+ "evoformer.w") = true.
Proof.
  destruct (add_model_prefix_keeps_all_entries demo_shadow) as (Hsize & _ & Hpre).
  split; [exact Hsize|].
  apply Hpre. rewrite (add_model_prefix_lookup demo_shadow "evoformer.w").
  unfold demo_shadow. rewrite lookup_insert_eq. by eexists.
Defined.

(** ** Boolean command-line values *)

Lemma lower_lower_char (c : ascii) : lower_char (lower_char c) = lower_char c.
Proof. destruct c as [[] [] [] [] [] [] [] []]; reflexivity. Qed.

Lemma lower_lower (s : string) : lower (lower s) = lower s.
Proof. induction s as [|c s IH]; simpl; [done|]. by rewrite lower_lower_char, IH. Qed.

Lemma case_pair_lower (c d : ascii) :
  case_pair c d = true → lower_char c = lower_char d.
Proof.
  unfold case_pair, lower_char. cbv zeta. intros H.
  apply andb_true_iff in H as [H Hd]. rewrite H.
  apply Nat.eqb_eq in Hd. apply andb_true_iff in H as [H1 H2].
  apply Nat.leb_le in H1, H2. rewrite Hd.
  replace ((65 <=? nat_of_ascii c + 32) && (nat_of_ascii c + 32 <=? 90)) with false.
  - rewrite <- Hd. by rewrite ascii_nat_embedding.
  - symmetry. apply andb_false_iff. right. apply Nat.leb_gt. lia.
Qed.

Lemma same_but_for_case_lower (s : string) : ∀ t,
  same_but_for_case s t = true → lower s = lower t.
Proof.
  induction s as [|c s IH]; intros [|d t]; simpl; try done.
  intros [Hc Hrest]%andb_true_iff. f_equal; [|by apply IH].
  apply orb_true_iff in Hc as [Hc|Hc]; [apply orb_true_iff in Hc as [Hc|Hc]|].
  - by apply Ascii.eqb_eq in Hc as ->.
  - by apply case_pair_lower.
  - symmetry. by apply case_pair_lower.
Qed.

(** The value of [bool_type] depends on the lower-cased string only. *)
Lemma bool_type_ok_iff (s : string) (b : bool) :
  bool_type s = Ok b ↔
  lower s ∈ (if b then ["true"; "t"; "yes"; "y"; "1"]
             else ["false"; "f"; "no"; "n"; "0"]).
Proof.
  unfold bool_type. cbv zeta.
  destruct (decide (lower s ∈ ["false"; "f"; "no"; "n"; "0"])) as [Hf|Hf].
  - destruct b; [|done]. split; [discriminate|].
    intros Ht. exfalso. revert Ht.
    repeat (apply elem_of_cons in Hf as [->|Hf]);
      [..|by apply elem_of_nil in Hf];
      apply (bool_decide_unpack _); vm_compute; exact I.
  - destruct (decide (lower s ∈ ["true"; "t"; "yes"; "y"; "1"])) as [Ht|Ht];
      destruct b; split; (done || discriminate).
Qed.

(** X24: [bool_type] ignores the case of ASCII letters: two strings that
    differ only in the case of such letters are accepted together and with
    the same value, and so are a string and its lower-cased form; the
    accepted strings are those that lower-case to one of the ten words; and a
    rejected string is quoted as it was typed in the [ValueError]. *)
Theorem bool_type_ignores_case (s t : string) :
  same_but_for_case s t = true →
  (∀ b, bool_type s = Ok b ↔ bool_type t = Ok b) ∧
  (∀ b, bool_type (lower s) = Ok b ↔ bool_type s = Ok b) ∧
  ((∃ b, bool_type s = Ok b) ↔
   lower s ∈ ["false"; "f"; "no"; "n"; "0"; "true"; "t"; "yes"; "y"; "1"]) ∧
  (∀ e, bool_type s = Raise e →
        e = ValueError ("Cannot interpret " +:+ s +:+ " as bool")).
Proof.
  intros Hcase. split; [|split; [|split]].
  - intros b. by rewrite !bool_type_ok_iff, (same_but_for_case_lower s t Hcase).
  - intros b. by rewrite !bool_type_ok_iff, lower_lower.
  - split.
    + intros [b Hb]. apply bool_type_ok_iff in Hb.
      change ["false"; "f"; "no"; "n"; "0"; "true"; "t"; "yes"; "y"; "1"]
        with (["false"; "f"; "no"; "n"; "0"] ++ ["true"; "t"; "yes"; "y"; "1"]).
      apply elem_of_app. destruct b; auto.
    + change ["false"; "f"; "no"; "n"; "0"; "true"; "t"; "yes"; "y"; "1"]
        with (["false"; "f"; "no"; "n"; "0"] ++ ["true"; "t"; "yes"; "y"; "1"]).
      intros [Hf|Ht]%elem_of_app.
      * exists false. by apply bool_type_ok_iff.
      * exists true. by apply bool_type_ok_iff.
  - intros e. unfold bool_type. cbv zeta.
    destruct (decide _); [discriminate|].
    destruct (decide _); [discriminate|]. by intros [= <-].
Qed.

Lemma bool_type_ignores_case_witness :
  same_but_for_case "YeS" "yes" = true ∧
  bool_type "YeS" = Ok true ∧
  same_but_for_case "Maybe" "maybe" = true ∧
  bool_type "Maybe" = Raise (ValueError "Cannot interpret Maybe as bool").
Proof.
  split; [reflexivity|]. split; [|split; [reflexivity|]].
  - apply (bool_type_ignores_case "YeS" "yes"); reflexivity.
  - destruct (bool_type "Maybe") as [b|e] eqn:Hr; [vm_compute in Hr; discriminate Hr|].
    destruct (bool_type_ignores_case "Maybe" "maybe") as (_ & _ & _ & Herr);
      [reflexivity|].
    by rewrite (Herr e Hr).
Defined.
